(** * mcp-time: the time server's tool catalog and tool-call dispatcher

    A shallow embedding of [src/index.ts] (class [TimeServer], method
    [setupToolHandlers]): the handler registered for [ListToolsRequestSchema]
    and the handler registered for [CallToolRequestSchema].

    The JavaScript host (the clock behind [new Date()], [Date.prototype]
    formatting, [Intl.DateTimeFormat], [Number] values) is not part of the
    repository; it is a parameter of the development, the classes
    [NumberOps] and [Platform] below.

    [src/index.ts] also carries a later revision of the same class, in
    which the same statements are interleaved with calls to a [log] helper
    that writes timestamped lines to stderr.  The first revision is
    modelled first; the [log] helper and the logging handlers follow in
    the part on the logging revision, over a world that also records
    stderr.  The constructor, [run] and the [SIGINT] hook only drive the
    SDK's [Server] and are not modelled. *)

From Stdlib Require Import ZArith String Ascii List Bool Lia.
From stdpp Require Import base option strings gmap pretty.

Set Warnings "-register-all".

Open Scope Z_scope.
Open Scope string_scope.

(** ** JavaScript values *)

(** What the host has to say about [Number] values.  Tool arguments arrive
    as parsed JSON, so a number may be any double; the program itself only
    tests numbers for truthiness and prints them. *)
Class NumberOps (number : Type) := {
  (** [ToBoolean] is false exactly on [+0], [-0] and [NaN]. *)
  Number_isFalsy : number -> bool;
  Number_isFinite : number -> bool;
  (** [Number::toString] in radix 10. *)
  Number_toString : number -> string;
  (** The Number for an integer produced by a [Date] getter. *)
  Number_ofZ : Z -> number
}.

Section Values.
Context {number : Type} `{NumberOps number}.

(** The values [JSON.parse] can build.  An object lists its own properties
    in the engine's property order. *)
Inductive value : Type :=
| VNull
| VBool (b : bool)
| VNum (n : number)
| VStr (s : string)
| VArr (items : list value)
| VObj (props : list (string * value)).

(** [ToBoolean]: the falsy values are [null], [false], [0], [NaN] and the
    empty string ([undefined] is the [None] of an [option value]). *)
Definition ToBoolean (v : value) : bool :=
  match v with
  | VNull => false
  | VBool b => b
  | VNum n => negb (Number_isFalsy n)
  | VStr s => negb (String.eqb s EmptyString)
  | VArr _ => true
  | VObj _ => true
  end.

(** [obj.key = v] on an ordinary object: an existing property keeps its
    place, a new one goes last. *)
Fixpoint set_prop (props : list (string * value)) (key : string) (v : value)
  : list (string * value) :=
  match props with
  | [] => [(key, v)]
  | (k, old) :: rest =>
      if String.eqb k key then (k, v) :: rest else (k, old) :: set_prop rest key v
  end.

Fixpoint get_prop (props : list (string * value)) (key : string) : option value :=
  match props with
  | [] => None
  | (k, v) :: rest => if String.eqb k key then Some v else get_prop rest key
  end.

(** [ToString] as used by template literals and by [Intl] on its
    [timeZone] option; [None] when the conversion throws a [TypeError].
    Arrays go through [Array.prototype.join], which converts every element
    but [null].  A plain object goes through [OrdinaryToPrimitive]: an own
    property named [toString] shadows [Object.prototype.toString] and, as
    parsed JSON, is never callable, and [valueOf] returns no primitive, so
    the conversion throws; without such a property the result is
    ["[object Object]"]. *)
Fixpoint ToString (v : value) : option string :=
  match v with
  | VNull => Some "null"
  | VBool b => Some (if b then "true" else "false")
  | VNum n => Some (Number_toString n)
  | VStr s => Some s
  | VArr items =>
      (fix join (l : list value) : option string :=
         match l with
         | [] => Some EmptyString
         | x :: rest =>
             match match x with VNull => Some EmptyString | _ => ToString x end with
             | None => None
             | Some piece =>
                 match rest with
                 | [] => Some piece
                 | _ =>
                     match join rest with
                     | Some tail => Some (piece +:+ "," +:+ tail)
                     | None => None
                     end
                 end
             end
         end) items
  | VObj props =>
      match get_prop props "toString" with
      | Some _ => None
      | None => Some "[object Object]"
      end
  end.

(** [a || b] where [a] may be [undefined]. *)
Definition js_or (a : option value) (b : value) : value :=
  match a with
  | Some v => if ToBoolean v then v else b
  | None => b
  end.

(** [v === s] for a string literal [s]. *)
Definition strict_eq_str (v : value) (s : string) : bool :=
  match v with
  | VStr s' => String.eqb s' s
  | _ => false
  end.

(** [args?.key]: [args] itself may be [undefined]. *)
Definition opt_get (args : option (gmap string value)) (key : string) : option value :=
  match args with
  | Some m => m !! key
  | None => None
  end.

(** ** [JSON.stringify] *)

Definition dquote : string := String "034"%char EmptyString.
Definition newline : string := String "010"%char EmptyString.
Definition backslash : string := String "092"%char EmptyString.

Definition hex_digit (n : N) : ascii :=
  if (n <? 10)%N then ascii_of_N (48 + n) else ascii_of_N (87 + n).

(** One code unit of [QuoteJSONString].  Strings are byte strings here;
    bytes from 0x80 up belong to multi-byte characters and are copied. *)
Definition quote_char (c : ascii) : string :=
  let n := N_of_ascii c in
  if (n =? 8)%N then backslash +:+ "b"
  else if (n =? 9)%N then backslash +:+ "t"
  else if (n =? 10)%N then backslash +:+ "n"
  else if (n =? 12)%N then backslash +:+ "f"
  else if (n =? 13)%N then backslash +:+ "r"
  else if (n =? 34)%N then backslash +:+ dquote
  else if (n =? 92)%N then backslash +:+ backslash
  else if (n <? 32)%N then
    backslash +:+ "u00"
    +:+ String (hex_digit (n / 16)) (String (hex_digit (n mod 16)) EmptyString)
  else String c EmptyString.

Fixpoint quote_chars (s : string) : string :=
  match s with
  | EmptyString => EmptyString
  | String c rest => quote_char c +:+ quote_chars rest
  end.

Definition QuoteJSONString (s : string) : string :=
  dquote +:+ quote_chars s +:+ dquote.

(** [separated sep l]: the pieces of [l] with [sep] between them. *)
Fixpoint separated (sep : string) (l : list string) : string :=
  match l with
  | [] => EmptyString
  | [x] => x
  | x :: rest => x +:+ sep +:+ separated sep rest
  end.

(** [SerializeJSONProperty] with a non-empty [gap]; [indent] is the
    current indentation. *)
Fixpoint SerializeJSON (gap indent : string) (v : value) : string :=
  match v with
  | VNull => "null"
  | VBool b => if b then "true" else "false"
  | VNum n => if Number_isFinite n then Number_toString n else "null"
  | VStr s => QuoteJSONString s
  | VArr items =>
      let stepback := indent in
      let indent := indent +:+ gap in
      match items with
      | [] => "[]"
      | _ =>
          "[" +:+ newline +:+ indent
          +:+ separated ("," +:+ newline +:+ indent)
                ((fix each (l : list value) : list string :=
                    match l with
                    | [] => []
                    | x :: rest => SerializeJSON gap indent x :: each rest
                    end) items)
          +:+ newline +:+ stepback +:+ "]"
      end
  | VObj props =>
      let stepback := indent in
      let indent := indent +:+ gap in
      match props with
      | [] => "{}"
      | _ =>
          "{" +:+ newline +:+ indent
          +:+ separated ("," +:+ newline +:+ indent)
                ((fix each (l : list (string * value)) : list string :=
                    match l with
                    | [] => []
                    | (k, x) :: rest =>
                        (QuoteJSONString k +:+ ": " +:+ SerializeJSON gap indent x)
                        :: each rest
                    end) props)
          +:+ newline +:+ stepback +:+ "}"
      end
  end.

Fixpoint spaces (n : nat) : string :=
  match n with
  | O => EmptyString
  | S k => " " +:+ spaces k
  end.

(** [JSON.stringify(v, null, space)] for a positive number [space]: the
    gap is [min(10, space)] spaces. *)
Definition JSON_stringify (v : value) (space : nat) : string :=
  SerializeJSON (spaces (Nat.min 10 space)) EmptyString v.

End Values.

Arguments value : clear implicits.

(** ** The host: clock, exceptions, formatting *)

(** The wall clock is a sequence of readings in epoch milliseconds;
    [samples] counts how many have been taken.  Nothing else in the
    handlers is stateful. *)
Record World := {
  clock : nat -> Z;
  samples : nat
}.

(** What a [throw] can carry: an [Error] instance (its [name] and
    [message]) or any other value. *)
Inductive Thrown (number : Type) : Type :=
| ThrownError (name message : string)
| ThrownValue (v : value number).
Arguments ThrownError {number} name message.
Arguments ThrownValue {number} v.

Inductive Completion (number A : Type) : Type :=
| Normal (a : A)
| Throw (e : Thrown number).
Arguments Normal {number A} a.
Arguments Throw {number A} e.

(** Computations of the handlers: they read the clock and may throw. *)
Definition M (number A : Type) : Type := World -> Completion number A * World.

Definition ret {number A} (a : A) : M number A := fun w => (Normal a, w).

Definition throw {number A} (e : Thrown number) : M number A := fun w => (Throw e, w).

Definition bind {number A B} (m : M number A) (k : A -> M number B) : M number B :=
  fun w =>
    match m w with
    | (Normal a, w') => k a w'
    | (Throw e, w') => (Throw e, w')
    end.

(** [try { body } catch (error) { handler }] *)
Definition try_catch {number A} (body : M number A) (handler : Thrown number -> M number A)
  : M number A :=
  fun w =>
    match body w with
    | (Normal a, w') => (Normal a, w')
    | (Throw e, w') => handler e w'
    end.

Notation "'let!' x ':=' m 'in' k" := (bind m (fun x => k))
  (at level 10, x name, m at level 100, k at level 200).

(** The reading the next [new Date()] will see, and the world after it. *)
Definition reading (w : World) : Z := clock w (samples w).

Definition tick (w : World) : World :=
  {| clock := clock w; samples := S (samples w) |}.

(** [new Date()]: one reading of the clock.  The Date is its time value. *)
Definition new_Date {number} : M number Z :=
  fun w => (Normal (reading w), tick w).

(** The options bag of [toLocaleString] and [Intl.DateTimeFormat]; an
    absent property is [None]. *)
Record DateTimeFormatOptions (number : Type) := {
  timeZone : option (value number);
  weekday : option string;
  year : option string;
  month : option string;
  day : option string;
  hour : option string;
  minute : option string;
  second : option string;
  hour12 : option bool;
  timeZoneName : option string
}.
Arguments timeZone {number} _.
Arguments weekday {number} _.
Arguments year {number} _.
Arguments month {number} _.
Arguments day {number} _.
Arguments hour {number} _.
Arguments minute {number} _.
Arguments second {number} _.
Arguments hour12 {number} _.
Arguments timeZoneName {number} _.

Definition no_options {number} : DateTimeFormatOptions number :=
  {| timeZone := None; weekday := None; year := None; month := None; day := None;
     hour := None; minute := None; second := None; hour12 := None;
     timeZoneName := None |}.

(** The host's date and time facilities.  A locale argument is [None]
    when the call passes none (the host's default locale).  The renderers
    are only consulted once the [timeZone] option has been accepted. *)
Class Platform (number : Type) := {
  (** ECMA-402 [IsValidTimeZoneName] / availability of the identifier. *)
  IsValidTimeZoneName : string -> bool;
  (** Message of the [RangeError] for a rejected [timeZone] option; the
      host builds it from the option value as passed. *)
  invalidTimeZoneMessage : value number -> string;
  (** Message of the [TypeError] of a [ToString] that throws. *)
  cannotConvertMessage : value number -> string;
  Date_toISOString : Z -> string;
  render_toLocaleString : option string -> DateTimeFormatOptions number -> Z -> string;
  render_toLocaleDateString : option string -> DateTimeFormatOptions number -> Z -> string;
  render_DateTimeFormat : option string -> DateTimeFormatOptions number -> Z -> string;
  Date_getFullYear : Z -> Z;
  Date_getMonth : Z -> Z;
  Date_getDate : Z -> Z;
  Date_getHours : Z -> Z;
  Date_getMinutes : Z -> Z;
  Date_getSeconds : Z -> Z;
  (** Minutes to add to local time to reach UTC: positive behind UTC. *)
  Date_getTimezoneOffset : Z -> Z;
  (** [getMonth] counts from January = 0, [getHours] is on the 24-hour
      clock. *)
  Date_getMonth_range : forall t, (0 <= Date_getMonth t <= 11)%Z;
  Date_getHours_range : forall t, (0 <= Date_getHours t <= 23)%Z
}.

Section Host.
Context {number : Type} `{NumberOps number} `{Platform number}.

(** [ToString(v)] as a step of a computation: the string, or a thrown
    [TypeError]. *)
Definition ToString_M (v : value number) : M number string :=
  match ToString v with
  | Some s => ret s
  | None => throw (ThrownError "TypeError" (cannotConvertMessage v))
  end.

(** Creating a formatter reads the [timeZone] option, applies [ToString]
    to it (which may throw) and throws a [RangeError] when the identifier
    is not a valid time zone name; the locale ['en-US'] and the other
    option values used by this program are always accepted. *)
Definition check_timeZone (options : DateTimeFormatOptions number) : M number unit :=
  match timeZone options with
  | None => ret tt
  | Some tz =>
      let! identifier := ToString_M tz in
      if IsValidTimeZoneName identifier then ret tt
      else throw (ThrownError "RangeError" (invalidTimeZoneMessage tz))
  end.

(** [date.toLocaleString(locales, options)] *)
Definition Date_toLocaleString (date : Z) (locales : option string)
    (options : DateTimeFormatOptions number) : M number string :=
  let! _ := check_timeZone options in
  ret (render_toLocaleString locales options date).

(** [date.toLocaleDateString(locales, options)] *)
Definition Date_toLocaleDateString (date : Z) (locales : option string)
    (options : DateTimeFormatOptions number) : M number string :=
  let! _ := check_timeZone options in
  ret (render_toLocaleDateString locales options date).

(** A constructed [Intl.DateTimeFormat]: its resolved locale and options. *)
Record DateTimeFormat := {
  dtf_locales : option string;
  dtf_options : DateTimeFormatOptions number
}.

(** [new Intl.DateTimeFormat(locales, options)] *)
Definition Intl_DateTimeFormat (locales : option string)
    (options : DateTimeFormatOptions number) : M number DateTimeFormat :=
  let! _ := check_timeZone options in
  ret {| dtf_locales := locales; dtf_options := options |}.

(** [formatter.format(date)] *)
Definition DateTimeFormat_format (f : DateTimeFormat) (date : Z) : M number string :=
  ret (render_DateTimeFormat (dtf_locales f) (dtf_options f) date).

End Host.

(** ** The tool catalog (handler of [ListToolsRequestSchema]) *)

(** One entry of [inputSchema.properties]. *)
Record PropertySchema := {
  prop_type : string;
  prop_description : string;
  enum : option (list string);
  default : option string
}.

Record InputSchema := {
  schema_type : string;
  properties : list (string * PropertySchema);
  additionalProperties : bool
}.

Record Tool := {
  name : string;
  description : string;
  inputSchema : InputSchema
}.

Record ListToolsResult := { tools : list Tool }.

(** The object literal the handler returns. *)
Definition tools_literal : ListToolsResult :=
  {| tools := [
    {| name := "get_current_time";
       description := "Get the current date and time";
       inputSchema := {|
         schema_type := "object";
         properties := [
           ("timezone",
            {| prop_type := "string";
               prop_description := "Timezone (optional, defaults to system timezone)";
               enum := None;
               default := Some "system" |});
           ("format",
            {| prop_type := "string";
               prop_description :=
                 "Time format: " +:+ dquote +:+ "12hour" +:+ dquote +:+ ", "
                 +:+ dquote +:+ "24hour" +:+ dquote +:+ ", or "
                 +:+ dquote +:+ "iso" +:+ dquote +:+ " (default: 12hour)";
               enum := Some ["12hour"; "24hour"; "iso"];
               default := Some "12hour" |})
         ];
         additionalProperties := false |} |};
    {| name := "get_time_info";
       description :=
         "Get detailed time information including timezone, day of week, etc.";
       inputSchema := {|
         schema_type := "object";
         properties := [
           ("timezone",
            {| prop_type := "string";
               prop_description := "Timezone (optional, defaults to system timezone)";
               enum := None;
               default := Some "system" |})
         ];
         additionalProperties := false |} |}
  ] |}.

Definition ListToolsRequest_handler {number} : M number ListToolsResult :=
  ret tools_literal.

(** ** The tool-call dispatcher (handler of [CallToolRequestSchema]) *)

Record ContentItem := {
  type : string;
  text : string
}.

(** [isError] is [None] when the property is absent. *)
Record ResponseEnvelope := {
  content : list ContentItem;
  isError : option bool
}.

Section Dispatcher.
Context {number : Type} `{NumberOps number} `{Platform number}.

(** The [if (name === 'get_current_time') { ... }] block. *)
Definition get_current_time (args : option (gmap string (value number)))
  : M number ResponseEnvelope :=
  let timezone := js_or (opt_get args "timezone") (VStr "system") in
  let format := js_or (opt_get args "format") (VStr "12hour") in
  let! now := new_Date in
  let! timeString :=
    if negb (strict_eq_str timezone "system") then
      (* For specific timezone *)
      let options :=
        {| timeZone := Some timezone;
           weekday := None;
           year := Some "numeric";
           month := Some "2-digit";
           day := Some "2-digit";
           hour := Some "2-digit";
           minute := Some "2-digit";
           second := Some "2-digit";
           hour12 := Some (strict_eq_str format "12hour");
           timeZoneName := None |} in
      Date_toLocaleString now (Some "en-US") options
    else
      (* System timezone *)
      if strict_eq_str format "iso" then
        ret (Date_toISOString now)
      else if strict_eq_str format "24hour" then
        Date_toLocaleString now (Some "en-US")
          {| timeZone := None; weekday := None; year := None; month := None;
             day := None; hour := None; minute := None; second := None;
             hour12 := Some false; timeZoneName := None |}
      else
        Date_toLocaleString now (Some "en-US")
          {| timeZone := None; weekday := None; year := None; month := None;
             day := None; hour := None; minute := None; second := None;
             hour12 := Some true; timeZoneName := None |}
  in
  ret {| content := [ {| type := "text"; text := "Current time: " +:+ timeString |} ];
         isError := None |}.

(** The [timeInfo] object literal of [get_time_info], evaluated property
    by property on the one Date [now]. *)
Definition timeInfo_literal (now : Z) : M number (list (string * value number)) :=
  let! local_time := Date_toLocaleString now None no_options in
  let! day_of_week :=
    Date_toLocaleDateString now (Some "en-US")
      {| timeZone := None; weekday := Some "long"; year := None; month := None;
         day := None; hour := None; minute := None; second := None;
         hour12 := None; timeZoneName := None |} in
  let! date := Date_toLocaleDateString now (Some "en-US") no_options in
  ret [ ("timestamp", VNum (Number_ofZ now));
        ("iso_string", VStr (Date_toISOString now));
        ("local_time", VStr local_time);
        ("day_of_week", VStr day_of_week);
        ("date", VStr date);
        ("year", VNum (Number_ofZ (Date_getFullYear now)));
        ("month", VNum (Number_ofZ (Date_getMonth now + 1)));
        ("day", VNum (Number_ofZ (Date_getDate now)));
        ("hour", VNum (Number_ofZ (Date_getHours now)));
        ("minute", VNum (Number_ofZ (Date_getMinutes now)));
        ("second", VNum (Number_ofZ (Date_getSeconds now)));
        ("timezone_offset", VNum (Number_ofZ (Date_getTimezoneOffset now))) ].

(** The [timeInfo] object as it stands when [get_time_info] serializes
    it.  The two assignments in the [try] block come after the only calls
    that can throw, so the [catch] block always sees the object literal
    unchanged.  The template literal in the [catch] block converts
    [timezone] to a string; when that throws, the failure leaves the
    block. *)
Definition get_time_info_record (timezone : value number) (now : Z)
  : M number (list (string * value number)) :=
  let! timeInfo := timeInfo_literal now in
  if negb (strict_eq_str timezone "system") then
    try_catch
      (let! tzFormatter :=
         Intl_DateTimeFormat (Some "en-US")
           {| timeZone := Some timezone;
              weekday := None;
              year := Some "numeric";
              month := Some "2-digit";
              day := Some "2-digit";
              hour := Some "2-digit";
              minute := Some "2-digit";
              second := Some "2-digit";
              hour12 := None;
              timeZoneName := Some "short" |} in
       let! formatted := DateTimeFormat_format tzFormatter now in
       let timeInfo := set_prop timeInfo "timezone_time" (VStr formatted) in
       let timeInfo := set_prop timeInfo "requested_timezone" timezone in
       ret timeInfo)
      (fun error =>
         let! shown := ToString_M timezone in
         ret (set_prop timeInfo "timezone_error" (VStr ("Invalid timezone: " +:+ shown))))
  else ret timeInfo.

(** The [if (name === 'get_time_info') { ... }] block. *)
Definition get_time_info (args : option (gmap string (value number)))
  : M number ResponseEnvelope :=
  let timezone := js_or (opt_get args "timezone") (VStr "system") in
  let! now := new_Date in
  let! timeInfo := get_time_info_record timezone now in
  ret {| content := [ {| type := "text"; text := JSON_stringify (VObj timeInfo) 2 |} ];
         isError := None |}.

(** The body of the handler's [try] block. *)
Definition CallToolRequest_try (name : string) (args : option (gmap string (value number)))
  : M number ResponseEnvelope :=
  if String.eqb name "get_current_time" then get_current_time args
  else if String.eqb name "get_time_info" then get_time_info args
  else throw (ThrownError "Error" ("Unknown tool: " +:+ name)).

(** The handler's [catch (error)] block. *)
Definition CallToolRequest_catch (error : Thrown number) : M number ResponseEnvelope :=
  let! described :=
    match error with
    | ThrownError _ message => ret message
    | ThrownValue v => ToString_M v
    end in
  ret {| content := [ {| type := "text"; text := "Error: " +:+ described |} ];
         isError := Some true |}.

(** The handler registered for [CallToolRequestSchema], applied to
    [request.params.name] and [request.params.arguments]. *)
Definition CallToolRequest_handler (name : string)
    (args : option (gmap string (value number))) : M number ResponseEnvelope :=
  try_catch (CallToolRequest_try name args) CallToolRequest_catch.

End Dispatcher.

(** ** Vocabulary of the specification *)

(** A success envelope: one text item, [isError] absent. *)
Definition success_envelope (s : string) : ResponseEnvelope :=
  {| content := [ {| type := "text"; text := s |} ]; isError := None |}.

(** A failure envelope: one text item ["Error: {message}"], [isError = true]. *)
Definition failure_envelope (message : string) : ResponseEnvelope :=
  {| content := [ {| type := "text"; text := "Error: " +:+ message |} ];
     isError := Some true |}.

(** The description a thrown failure contributes to the failure envelope:
    the message of an [Error], the string form of any other thrown value
    (the program throws only [Error] instances). *)
Definition failure_message {number} `{NumberOps number} (e : Thrown number) : string :=
  match e with
  | ThrownError _ message => message
  | ThrownValue v =>
      match ToString v with
      | Some s => s
      | None => EmptyString
      end
  end.

(** Parameter resolution in the words of the specification (4.2, step 2):
    a missing or falsy argument is replaced by the declared default, any
    other value is passed through as received. *)
Definition resolve_parameter {number} `{NumberOps number}
    (argument : option (value number)) (declared_default : string) : value number :=
  match argument with
  | None => VStr declared_default
  | Some v => if ToBoolean v then v else VStr declared_default
  end.

(** The handlers' [timezone] and [format] variables. *)
Definition timezone_of {number} `{NumberOps number}
    (args : option (gmap string (value number))) : value number :=
  js_or (opt_get args "timezone") (VStr "system").

Definition format_of {number} `{NumberOps number}
    (args : option (gmap string (value number))) : value number :=
  js_or (opt_get args "format") (VStr "12hour").

(** The option bags the handlers pass to the host. *)
Definition named_zone_options {number} (timezone : value number) (twelve : bool)
  : DateTimeFormatOptions number :=
  {| timeZone := Some timezone; weekday := None;
     year := Some "numeric"; month := Some "2-digit"; day := Some "2-digit";
     hour := Some "2-digit"; minute := Some "2-digit"; second := Some "2-digit";
     hour12 := Some twelve; timeZoneName := None |}.

Definition hour12_options {number} (twelve : bool) : DateTimeFormatOptions number :=
  {| timeZone := None; weekday := None; year := None; month := None; day := None;
     hour := None; minute := None; second := None; hour12 := Some twelve;
     timeZoneName := None |}.

Definition weekday_long_options {number} : DateTimeFormatOptions number :=
  {| timeZone := None; weekday := Some "long"; year := None; month := None;
     day := None; hour := None; minute := None; second := None; hour12 := None;
     timeZoneName := None |}.

Definition short_zone_name_options {number} (timezone : value number)
  : DateTimeFormatOptions number :=
  {| timeZone := Some timezone; weekday := None;
     year := Some "numeric"; month := Some "2-digit"; day := Some "2-digit";
     hour := Some "2-digit"; minute := Some "2-digit"; second := Some "2-digit";
     hour12 := None; timeZoneName := Some "short" |}.

(** The names the dispatcher has a branch for. *)
Definition dispatches (operationName : string) : bool :=
  String.eqb operationName "get_current_time" || String.eqb operationName "get_time_info".

(** Name, allowed values and default of each declared parameter, in order. *)
Definition declared_parameters (t : Tool)
  : list (string * option (list string) * option string) :=
  map (fun p => (fst p, enum (snd p), default (snd p))) (properties (inputSchema t)).

Section Vocabulary.
Context {number : Type} `{NumberOps number} `{Platform number}.

(** One member of a serialized object: the quoted key, a colon and a
    space, the serialized value. *)
Definition member (gap indent : string) (kv : string * value number) : string :=
  QuoteJSONString (fst kv) +:+ ": " +:+ SerializeJSON gap indent (snd kv).

(** The twelve properties of the [timeInfo] literal for the Date [now]. *)
Definition system_fields (now : Z) : list (string * value number) :=
  [ ("timestamp", VNum (Number_ofZ now));
    ("iso_string", VStr (Date_toISOString now));
    ("local_time", VStr (render_toLocaleString None no_options now));
    ("day_of_week",
     VStr (render_toLocaleDateString (Some "en-US") weekday_long_options now));
    ("date", VStr (render_toLocaleDateString (Some "en-US") no_options now));
    ("year", VNum (Number_ofZ (Date_getFullYear now)));
    ("month", VNum (Number_ofZ (Date_getMonth now + 1)));
    ("day", VNum (Number_ofZ (Date_getDate now)));
    ("hour", VNum (Number_ofZ (Date_getHours now)));
    ("minute", VNum (Number_ofZ (Date_getMinutes now)));
    ("second", VNum (Number_ofZ (Date_getSeconds now)));
    ("timezone_offset", VNum (Number_ofZ (Date_getTimezoneOffset now))) ].

(** The properties that depend on the requested time zone, for a
    [timezone] that has a string form. *)
Definition zone_fields (timezone : value number) (now : Z)
  : list (string * value number) :=
  if strict_eq_str timezone "system" then []
  else
    match ToString timezone with
    | Some identifier =>
        if IsValidTimeZoneName identifier then
          [ ("timezone_time",
             VStr (render_DateTimeFormat (Some "en-US")
                     (short_zone_name_options timezone) now));
            ("requested_timezone", timezone) ]
        else
          [ ("timezone_error", VStr ("Invalid timezone: " +:+ identifier)) ]
    | None => []
    end.

(** What [get_time_info] computes for [timeInfo], as a function of the
    handler's variables: a [timezone] without a string form makes both the
    formatter and the [catch] block throw. *)
Definition timeInfo_of (timezone : value number) (now : Z)
  : Completion number (list (string * value number)) :=
  match ToString timezone with
  | Some _ => Normal (system_fields now ++ zone_fields timezone now)%list
  | None => Throw (ThrownError "TypeError" (cannotConvertMessage timezone))
  end.

(** What [get_current_time] computes for [timeString], as a function of
    the handler's variables. *)
Definition timeString_of (timezone format : value number) (now : Z)
  : Completion number string :=
  if negb (strict_eq_str timezone "system") then
    match ToString timezone with
    | Some identifier =>
        if IsValidTimeZoneName identifier then
          Normal (render_toLocaleString (Some "en-US")
                    (named_zone_options timezone (strict_eq_str format "12hour")) now)
        else Throw (ThrownError "RangeError" (invalidTimeZoneMessage timezone))
    | None => Throw (ThrownError "TypeError" (cannotConvertMessage timezone))
    end
  else if strict_eq_str format "iso" then Normal (Date_toISOString now)
  else if strict_eq_str format "24hour" then
    Normal (render_toLocaleString (Some "en-US") (hour12_options false) now)
  else Normal (render_toLocaleString (Some "en-US") (hour12_options true) now).

(** The [get_current_time] text as the specification words it for
    [timezone = "system"], [format = "24hour"]: the host's default locale,
    24-hour notation. *)
Definition specified_24hour_text (now : Z) : string :=
  "Current time: " +:+ render_toLocaleString None (hour12_options false) now.

(** The record of a [get_time_info] call without a time zone as the
    specification words it: as [system_fields], except that the fifth
    field is the locale-default date string. *)
Definition specified_system_fields (now : Z) : list (string * value number) :=
  [ ("timestamp", VNum (Number_ofZ now));
    ("iso_string", VStr (Date_toISOString now));
    ("local_time", VStr (render_toLocaleString None no_options now));
    ("day_of_week",
     VStr (render_toLocaleDateString (Some "en-US") weekday_long_options now));
    ("date", VStr (render_toLocaleDateString None no_options now));
    ("year", VNum (Number_ofZ (Date_getFullYear now)));
    ("month", VNum (Number_ofZ (Date_getMonth now + 1)));
    ("day", VNum (Number_ofZ (Date_getDate now)));
    ("hour", VNum (Number_ofZ (Date_getHours now)));
    ("minute", VNum (Number_ofZ (Date_getMinutes now)));
    ("second", VNum (Number_ofZ (Date_getSeconds now)));
    ("timezone_offset", VNum (Number_ofZ (Date_getTimezoneOffset now))) ].

End Vocabulary.

(** ** A reference host

    A concrete host on which the handlers can be run: numbers are the
    integers, the machine's time zone is UTC, its default locale is
    [de-DE], and its time zone database knows [UTC] and [Asia/Tokyo]
    (UTC+9, no daylight saving).  The renderers imitate the output of
    Node.js for the option bags the handlers use; they serve to run the
    handlers, and no general property depends on them. *)
Module RefHost.

#[local] Open Scope Z_scope.

#[export] Instance Z_NumberOps : NumberOps Z := {
  Number_isFalsy z := Z.eqb z 0;
  Number_isFinite _ := true;
  Number_toString z := pretty z;
  Number_ofZ z := z
}.

(** Broken-down time of an instant shifted by [offset] minutes. *)
Record Civil := {
  c_year : Z; c_month : Z; c_day : Z;
  c_hour : Z; c_minute : Z; c_second : Z; c_milli : Z;
  c_weekday : Z
}.

Definition civil (offset t : Z) : Civil :=
  let local := t + offset * 60000 in
  let days := local / 86400000 in
  let ms := local mod 86400000 in
  let z := days + 719468 in
  let era := z / 146097 in
  let doe := z - era * 146097 in
  let yoe := (doe - doe / 1460 + doe / 36524 - doe / 146096) / 365 in
  let doy := doe - (365 * yoe + yoe / 4 - yoe / 100) in
  let mp := (5 * doy + 2) / 153 in
  let d := doy - (153 * mp + 2) / 5 + 1 in
  let m := if mp <? 10 then mp + 3 else mp - 9 in
  let y := yoe + era * 400 + (if m <=? 2 then 1 else 0) in
  {| c_year := y; c_month := m; c_day := d;
     c_hour := ms / 3600000;
     c_minute := (ms / 60000) mod 60;
     c_second := (ms / 1000) mod 60;
     c_milli := ms mod 1000;
     c_weekday := (days + 4) mod 7 |}.

Definition pad2 (n : Z) : string :=
  if n <? 10 then "0" +:+ pretty n else pretty n.

Definition pad3 (n : Z) : string :=
  if n <? 10 then "00" +:+ pretty n
  else if n <? 100 then "0" +:+ pretty n else pretty n.

Definition pad4 (n : Z) : string :=
  if n <? 1000 then "0" +:+ pad3 n else pretty n.

Definition weekday_name (d : Z) : string :=
  nth (Z.to_nat d)
    ["Sunday"; "Monday"; "Tuesday"; "Wednesday"; "Thursday"; "Friday"; "Saturday"]
    EmptyString.

Definition iso_string (t : Z) : string :=
  let c := civil 0 t in
  pad4 (c_year c) +:+ "-" +:+ pad2 (c_month c) +:+ "-" +:+ pad2 (c_day c)
  +:+ "T" +:+ pad2 (c_hour c) +:+ ":" +:+ pad2 (c_minute c) +:+ ":" +:+ pad2 (c_second c)
  +:+ "." +:+ pad3 (c_milli c) +:+ "Z".

Definition zone_is_valid (id : string) : bool :=
  String.eqb id "UTC" || String.eqb id "Asia/Tokyo".

Definition is_tokyo (o : DateTimeFormatOptions Z) : bool :=
  match timeZone o with
  | Some tz =>
      match ToString tz with
      | Some identifier => String.eqb identifier "Asia/Tokyo"
      | None => false
      end
  | None => false
  end.

Definition zone_offset (o : DateTimeFormatOptions Z) : Z :=
  if is_tokyo o then 540 else 0.

Definition zone_short_name (o : DateTimeFormatOptions Z) : string :=
  if is_tokyo o then "GMT+9" else "UTC".

(** How the option value shows in the [RangeError] message. *)
Definition shown_in_message (tz : value Z) : string :=
  match tz with
  | VNull => "null"
  | VBool b => if b then "true" else "false"
  | VNum n => pretty n
  | VStr s => s
  | VArr _ => "[object Array]"
  | VObj _ => "#<Object>"
  end.

Definition is_two_digit (f : option string) : bool :=
  match f with
  | Some s => String.eqb s "2-digit"
  | None => false
  end.

(** The locale actually used: the host default is [de-DE]. *)
Definition is_en_US (locales : option string) : bool :=
  match locales with
  | Some l => String.eqb l "en-US"
  | None => false
  end.

Definition date_part (locales : option string) (o : DateTimeFormatOptions Z) (c : Civil)
  : string :=
  let m := if is_two_digit (month o) then pad2 (c_month c) else pretty (c_month c) in
  let d := if is_two_digit (day o) then pad2 (c_day c) else pretty (c_day c) in
  if is_en_US locales then m +:+ "/" +:+ d +:+ "/" +:+ pretty (c_year c)
  else d +:+ "." +:+ m +:+ "." +:+ pretty (c_year c).

Definition time_part (locales : option string) (o : DateTimeFormatOptions Z) (c : Civil)
  : string :=
  let twelve :=
    match hour12 o with
    | Some b => b
    | None => is_en_US locales
    end in
  let tail := ":" +:+ pad2 (c_minute c) +:+ ":" +:+ pad2 (c_second c) in
  if twelve then
    let h := if c_hour c mod 12 =? 0 then 12 else c_hour c mod 12 in
    (if is_two_digit (hour o) then pad2 h else pretty h)
    +:+ tail +:+ (if c_hour c <? 12 then " AM" else " PM")
  else pad2 (c_hour c) +:+ tail.

Definition zone_part (o : DateTimeFormatOptions Z) : string :=
  match timeZoneName o with
  | Some _ => " " +:+ zone_short_name o
  | None => EmptyString
  end.

Definition date_time (locales : option string) (o : DateTimeFormatOptions Z) (t : Z)
  : string :=
  let c := civil (zone_offset o) t in
  date_part locales o c +:+ ", " +:+ time_part locales o c +:+ zone_part o.

Definition date_only (locales : option string) (o : DateTimeFormatOptions Z) (t : Z)
  : string :=
  let c := civil (zone_offset o) t in
  match weekday o, year o with
  | Some _, None => weekday_name (c_weekday c)
  | _, _ => date_part locales o c
  end.

#[local] Ltac Zify.zify_post_hook ::= Z.to_euclidean_division_equations.

#[export, refine] Instance platform : Platform Z := {|
  IsValidTimeZoneName := zone_is_valid;
  invalidTimeZoneMessage tz := "Invalid time zone specified: " +:+ shown_in_message tz;
  cannotConvertMessage _ := "Cannot convert object to primitive value";
  Date_toISOString := iso_string;
  render_toLocaleString := date_time;
  render_toLocaleDateString := date_only;
  render_DateTimeFormat := date_time;
  Date_getFullYear t := c_year (civil 0 t);
  Date_getMonth t := c_month (civil 0 t) - 1;
  Date_getDate t := c_day (civil 0 t);
  Date_getHours t := c_hour (civil 0 t);
  Date_getMinutes t := c_minute (civil 0 t);
  Date_getSeconds t := c_second (civil 0 t);
  Date_getTimezoneOffset _ := 0;
  Date_getMonth_range := _;
  Date_getHours_range := _
|}.
Proof.
  - intros t. unfold civil. cbv zeta. cbn [c_month].
    set (z := (t + 0 * 60000) / 86400000 + 719468).
    assert (0 <= z - z / 146097 * 146097 <= 146096) as Hdoe by lia.
    set (doe := z - z / 146097 * 146097) in *. clearbody doe. clear z.
    set (yoe := (doe - doe / 1460 + doe / 36524 - doe / 146096) / 365).
    assert (0 <= doe - (365 * yoe + yoe / 4 - yoe / 100) <= 365) as Hdoy
      by (subst yoe; lia).
    set (doy := doe - (365 * yoe + yoe / 4 - yoe / 100)) in *. clearbody doy.
    destruct (Z.ltb_spec ((5 * doy + 2) / 153) 10); lia.
  - intros t. unfold civil. cbv zeta. cbn [c_hour]. lia.
Defined.

(** A clock stuck at 2024-01-15T10:30:00.000Z, not yet read. *)
Definition world : World := {| clock := fun _ => 1705314600000; samples := 0 |}.

(** A clock that advances one second per reading from the same start. *)
Definition ticking : World :=
  {| clock := fun n => 1705314600000 + 1000 * Z.of_nat n; samples := 0 |}.

(** Argument bags used to exercise the handlers. *)
Definition no_arguments : option (gmap string (value Z)) := Some ∅.

Definition bad_zone : option (gmap string (value Z)) :=
  Some {[ "timezone" := VStr "Not/ARealZone" ]}.

(** An argument JSON can carry and [ToString] cannot convert. *)
Definition unconvertible : value Z := VObj [ ("toString", VNum 1) ].

Definition unconvertible_zone : option (gmap string (value Z)) :=
  Some {[ "timezone" := unconvertible ]}.

Definition tokyo : option (gmap string (value Z)) :=
  Some {[ "timezone" := VStr "Asia/Tokyo" ]}.

Definition tokyo_iso : option (gmap string (value Z)) :=
  Some {[ "timezone" := VStr "Asia/Tokyo"; "format" := VStr "iso" ]}.

Definition tokyo_verbose : option (gmap string (value Z)) :=
  Some {[ "timezone" := VStr "Asia/Tokyo"; "verbose" := VBool true ]}.

Definition system_24hour : option (gmap string (value Z)) :=
  Some {[ "format" := VStr "24hour" ]}.

End RefHost.

(** ** The logging revision

    The second revision of [src/index.ts]: the [log] helper and the two
    handlers with their [log] calls.  Its world also holds what has been
    written to stderr, one entry per [console.error] call, oldest first. *)

Record LoggedWorld := {
  lw_world : World;
  lw_stderr : list string
}.

Definition ML (number A : Type) : Type :=
  LoggedWorld -> Completion number A * LoggedWorld.

Definition lret {number A} (a : A) : ML number A := fun p => (Normal a, p).

Definition lthrow {number A} (e : Thrown number) : ML number A := fun p => (Throw e, p).

Definition lbind {number A B} (m : ML number A) (k : A -> ML number B) : ML number B :=
  fun p =>
    match m p with
    | (Normal a, p') => k a p'
    | (Throw e, p') => (Throw e, p')
    end.

Definition ltry_catch {number A} (body : ML number A)
    (handler : Thrown number -> ML number A) : ML number A :=
  fun p =>
    match body p with
    | (Normal a, p') => (Normal a, p')
    | (Throw e, p') => handler e p'
    end.

Notation "'let*' x ':=' m 'in' k" := (lbind m (fun x => k))
  (at level 10, x name, m at level 100, k at level 200).

(** A computation that does not write to stderr. *)
Definition lift {number A} (m : M number A) : ML number A :=
  fun p =>
    match m (lw_world p) with
    | (r, w') => (r, {| lw_world := w'; lw_stderr := lw_stderr p |})
    end.

(** [console.error(line)] with a single string argument. *)
Definition console_error {number} (line : string) : ML number unit :=
  fun p => (Normal tt,
            {| lw_world := lw_world p; lw_stderr := (lw_stderr p ++ [line])%list |}).

(** What the program passes as [data] to [log]: the argument bag of a
    request or the value caught by [catch]. *)
Inductive LogData (number : Type) : Type :=
| DataJSON (v : value number)
| DataThrown (e : Thrown number).
Arguments DataJSON {number} v.
Arguments DataThrown {number} e.

Section Logging.
Context {number : Type} `{NumberOps number} `{Platform number}.

(** [if (data)]: an [Error] instance is an object, hence truthy. *)
Definition data_truthy (data : LogData number) : bool :=
  match data with
  | DataJSON v => ToBoolean v
  | DataThrown (ThrownError _ _) => true
  | DataThrown (ThrownValue v) => ToBoolean v
  end.

(** [JSON.stringify(data, null, 2)]: an [Error] instance has no
    enumerable own property. *)
Definition data_stringify (data : LogData number) : string :=
  match data with
  | DataJSON v => JSON_stringify v 2
  | DataThrown (ThrownError _ _) => "{}"
  | DataThrown (ThrownValue v) => JSON_stringify v 2
  end.

(** [const log = (level, message, data?) => { ... }]; [data] is [None]
    when the call passes no third argument or passes [undefined]. *)
Definition log (level message : string) (data : option (LogData number))
  : ML number unit :=
  let* now := lift new_Date in
  let timestamp := Date_toISOString now in
  let logMessage := "[" +:+ timestamp +:+ "] " +:+ level +:+ ": " +:+ message in
  let* _ := console_error logMessage in
  match data with
  | Some d => if data_truthy d then console_error (data_stringify d) else lret tt
  | None => lret tt
  end.

(** [args?.key] on the request's argument object, kept with its
    properties in order because [log] serializes it. *)
Definition opt_get_prop (args : option (list (string * value number))) (key : string)
  : option (value number) :=
  match args with
  | Some props => get_prop props key
  | None => None
  end.

(** The handler of [ListToolsRequestSchema] in the logging revision. *)
Definition ListToolsRequest_handler_logged : ML number ListToolsResult :=
  let* _ := log "INFO" "Received tools/list request" None in
  let tools_ := tools_literal in
  let* _ :=
    log "INFO"
      ("Returning "
       +:+ Number_toString (Number_ofZ (Z.of_nat (length (tools tools_))))
       +:+ " available tools") None in
  lret tools_.

(** The [get_current_time] block of the logging revision.  The template
    literal of its first [log] call converts [timezone], then [format], to
    strings before [log] is entered. *)
Definition get_current_time_logged (args : option (list (string * value number)))
  : ML number ResponseEnvelope :=
  let timezone := js_or (opt_get_prop args "timezone") (VStr "system") in
  let format := js_or (opt_get_prop args "format") (VStr "12hour") in
  let* timezone_text := lift (ToString_M timezone) in
  let* format_text := lift (ToString_M format) in
  let* _ :=
    log "INFO"
      ("Getting current time - timezone: " +:+ timezone_text
       +:+ ", format: " +:+ format_text) None in
  let* now := lift new_Date in
  let* timeString :=
    lift
      (if negb (strict_eq_str timezone "system") then
         let options :=
           {| timeZone := Some timezone;
              weekday := None;
              year := Some "numeric";
              month := Some "2-digit";
              day := Some "2-digit";
              hour := Some "2-digit";
              minute := Some "2-digit";
              second := Some "2-digit";
              hour12 := Some (strict_eq_str format "12hour");
              timeZoneName := None |} in
         Date_toLocaleString now (Some "en-US") options
       else
         if strict_eq_str format "iso" then
           ret (Date_toISOString now)
         else if strict_eq_str format "24hour" then
           Date_toLocaleString now (Some "en-US")
             {| timeZone := None; weekday := None; year := None; month := None;
                day := None; hour := None; minute := None; second := None;
                hour12 := Some false; timeZoneName := None |}
         else
           Date_toLocaleString now (Some "en-US")
             {| timeZone := None; weekday := None; year := None; month := None;
                day := None; hour := None; minute := None; second := None;
                hour12 := Some true; timeZoneName := None |})
  in
  let result :=
    {| content := [ {| type := "text"; text := "Current time: " +:+ timeString |} ];
       isError := None |} in
  let* _ := log "INFO" ("Returning time: " +:+ timeString) None in
  lret result.

(** The [get_time_info] block of the logging revision; the statements
    that build [timeInfo] are those of the first revision. *)
Definition get_time_info_logged (args : option (list (string * value number)))
  : ML number ResponseEnvelope :=
  let timezone := js_or (opt_get_prop args "timezone") (VStr "system") in
  let* timezone_text := lift (ToString_M timezone) in
  let* _ :=
    log "INFO" ("Getting detailed time info - timezone: " +:+ timezone_text) None in
  let* now := lift new_Date in
  let* timeInfo := lift (get_time_info_record timezone now) in
  let result :=
    {| content := [ {| type := "text"; text := JSON_stringify (VObj timeInfo) 2 |} ];
       isError := None |} in
  let* _ := log "INFO" "Returning detailed time info" None in
  lret result.

(** The handler of [CallToolRequestSchema] in the logging revision. *)
Definition CallToolRequest_handler_logged (name : string)
    (args : option (list (string * value number))) : ML number ResponseEnvelope :=
  let* _ :=
    log "INFO" ("Received tool call: " +:+ name)
      (match args with
       | Some props => Some (DataJSON (VObj props))
       | None => None
       end) in
  ltry_catch
    (if String.eqb name "get_current_time" then get_current_time_logged args
     else if String.eqb name "get_time_info" then get_time_info_logged args
     else lthrow (ThrownError "Error" ("Unknown tool: " +:+ name)))
    (fun error =>
       let* _ :=
         log "ERROR" ("Tool execution failed: " +:+ name) (Some (DataThrown error)) in
       let* described :=
         lift match error with
              | ThrownError _ message => ret message
              | ThrownValue v => ToString_M v
              end in
       lret {| content := [ {| type := "text"; text := "Error: " +:+ described |} ];
               isError := Some true |}).

(** The argument object as the bag the first revision's handlers read. *)
Definition bag_of (args : option (list (string * value number)))
  : option (gmap string (value number)) :=
  match args with
  | Some props => Some (list_to_map props)
  | None => None
  end.

(** The world after [n] more readings of the clock. *)
Definition advance (n : nat) (w : World) : World :=
  {| clock := clock w; samples := (samples w + n)%nat |}.

(** The [n]-th reading from now, counting from 0. *)
Definition reading_at (n : nat) (w : World) : Z := clock w (samples w + n)%nat.

(** A line written by [log] at the instant [now]. *)
Definition log_line (now : Z) (level message : string) : string :=
  "[" +:+ Date_toISOString now +:+ "] " +:+ level +:+ ": " +:+ message.

(** Whether the template literal of the tool's first [log] call can be
    built: [get_current_time] converts [timezone] and [format] to strings,
    [get_time_info] converts [timezone]. *)
Definition announce_converts (name : string)
    (args : option (list (string * value number))) : bool :=
  let timezone := js_or (opt_get_prop args "timezone") (VStr "system") in
  let format := js_or (opt_get_prop args "format") (VStr "12hour") in
  if String.eqb name "get_current_time" then
    match ToString timezone, ToString format with
    | Some _, Some _ => true
    | _, _ => false
    end
  else if String.eqb name "get_time_info" then
    match ToString timezone with
    | Some _ => true
    | None => false
    end
  else true.

(** The dump of the request's arguments that follows the first line. *)
Definition arguments_dump (args : option (list (string * value number))) : list string :=
  match args with
  | Some props => [ JSON_stringify (VObj props) 2 ]
  | None => []
  end.

End Logging.

(** Requests used to exercise the logging revision and the catalog on
    the reference host. *)
Module RefRuns.
Import RefHost.

Definition quiet : LoggedWorld := {| lw_world := ticking; lw_stderr := [] |}.

Definition tokyo_object : option (list (string * value Z)) :=
  Some [ ("timezone", VStr "Asia/Tokyo") ].

Definition bad_zone_object : option (list (string * value Z)) :=
  Some [ ("timezone", VStr "Not/ARealZone") ].

Definition tokyo_bag : gmap string (value Z) := {[ "timezone" := VStr "Asia/Tokyo" ]}.

Definition tokyo_military : gmap string (value Z) :=
  {[ "timezone" := VStr "Asia/Tokyo"; "format" := VStr "military" ]}.

Definition system_military : gmap string (value Z) := {[ "format" := VStr "military" ]}.

Definition system_iso : option (gmap string (value Z)) :=
  Some {[ "format" := VStr "iso" ]}.

Definition format_schema : PropertySchema :=
  {| prop_type := "string";
     prop_description :=
       "Time format: " +:+ dquote +:+ "12hour" +:+ dquote +:+ ", "
       +:+ dquote +:+ "24hour" +:+ dquote +:+ ", or "
       +:+ dquote +:+ "iso" +:+ dquote +:+ " (default: 12hour)";
     enum := Some ["12hour"; "24hour"; "iso"];
     default := Some "12hour" |}.

(** A request whose [format] cannot be converted to a string. *)
Definition odd_format_object : option (list (string * value Z)) :=
  Some [ ("format", unconvertible) ].

(** The [i]-th descriptor of the catalog. *)
Definition listed (i : nat) : Tool :=
  nth i (tools tools_literal)
    {| name := EmptyString; description := EmptyString;
       inputSchema := {| schema_type := EmptyString; properties := [];
                         additionalProperties := false |} |}.

End RefRuns.

(** ** Running the handlers *)

Section Runs.
Context {number : Type} `{NumberOps number} `{Platform number}.

Implicit Types (args : option (gmap string (value number))) (w : World).

Ltac run :=
  unfold CallToolRequest_handler, CallToolRequest_try, CallToolRequest_catch,
    get_current_time, get_time_info, get_time_info_record, timeInfo_literal,
    Date_toLocaleString, Date_toLocaleDateString, Intl_DateTimeFormat,
    DateTimeFormat_format, check_timeZone, ToString_M, new_Date, try_catch,
    bind, ret, throw;
  cbn [timeZone dtf_locales dtf_options].

Lemma strict_eq_str_true (v : value number) (s : string) :
  strict_eq_str v s = true <-> v = VStr s.
Proof.
  destruct v; cbn; try (split; discriminate).
  rewrite String.eqb_eq. split; congruence.
Qed.

Lemma strict_eq_str_false (v : value number) (s : string) :
  strict_eq_str v s = false <-> v <> VStr s.
Proof.
  rewrite <- strict_eq_str_true. destruct (strict_eq_str v s); split; congruence.
Qed.

(** The members of a serialized object come one per property, in order. *)
Lemma SerializeJSON_object gap indent kv rest :
  SerializeJSON gap indent (VObj (kv :: rest)) =
  "{" +:+ newline +:+ (indent +:+ gap)
  +:+ separated ("," +:+ newline +:+ (indent +:+ gap))
        (map (member gap (indent +:+ gap)) (kv :: rest))
  +:+ newline +:+ indent +:+ "}".
Proof.
  destruct kv as [k x]. cbn [SerializeJSON map member fst snd].
  do 4 f_equal. f_equal. f_equal.
  induction rest as [|[k' x'] rest IH]; [reflexivity|].
  cbn [map member fst snd]. rewrite <- IH. reflexivity.
Qed.

Lemma get_current_time_run args w :
  get_current_time args w =
  match timeString_of (timezone_of args) (format_of args) (reading w) with
  | Normal timeString => (Normal (success_envelope ("Current time: " +:+ timeString)), tick w)
  | Throw e => (Throw e, tick w)
  end.
Proof.
  run. unfold timeString_of, timezone_of, format_of, named_zone_options, hour12_options.
  destruct (strict_eq_str (js_or (opt_get args "timezone") (VStr "system")) "system");
    cbn [negb timeZone].
  - destruct (strict_eq_str (js_or (opt_get args "format") (VStr "12hour")) "iso");
      [reflexivity|].
    destruct (strict_eq_str (js_or (opt_get args "format") (VStr "12hour")) "24hour");
      reflexivity.
  - destruct (ToString _) as [identifier|]; [|reflexivity].
    destruct (IsValidTimeZoneName identifier); reflexivity.
Qed.

Lemma get_time_info_record_run timezone now w :
  get_time_info_record timezone now w = (timeInfo_of timezone now, w).
Proof.
  run. unfold timeInfo_of, zone_fields, short_zone_name_options.
  destruct (strict_eq_str timezone "system") eqn:Hsys; cbn [negb].
  - apply strict_eq_str_true in Hsys. subst timezone. cbn [ToString].
    rewrite app_nil_r. reflexivity.
  - destruct (ToString timezone) as [identifier|]; [|reflexivity].
    destruct (IsValidTimeZoneName identifier); reflexivity.
Qed.

Lemma get_time_info_run args w :
  get_time_info args w =
  match timeInfo_of (timezone_of args) (reading w) with
  | Normal timeInfo =>
      (Normal (success_envelope (JSON_stringify (VObj timeInfo) 2)), tick w)
  | Throw e => (Throw e, tick w)
  end.
Proof.
  unfold get_time_info, bind, new_Date.
  rewrite get_time_info_record_run. fold (timezone_of args).
  destruct (timeInfo_of _ _); reflexivity.
Qed.

(** Whatever the two tools throw is an [Error] instance. *)
Lemma timeString_of_throws (timezone format : value number) (now : Z) (e : Thrown number) :
  timeString_of timezone format now = Throw e ->
  exists kind message, e = ThrownError kind message.
Proof.
  unfold timeString_of.
  destruct (negb (strict_eq_str timezone "system")).
  - destruct (ToString timezone) as [identifier|].
    + destruct (IsValidTimeZoneName identifier); [discriminate|].
      intros E. injection E as <-. eauto.
    + intros E. injection E as <-. eauto.
  - destruct (strict_eq_str format "iso"); [discriminate|].
    destruct (strict_eq_str format "24hour"); discriminate.
Qed.

Lemma timeInfo_of_throws (timezone : value number) (now : Z) (e : Thrown number) :
  timeInfo_of timezone now = Throw e ->
  e = ThrownError "TypeError" (cannotConvertMessage timezone).
Proof.
  unfold timeInfo_of. destruct (ToString timezone); [discriminate|].
  intros E. injection E as <-. reflexivity.
Qed.

End Runs.

(** ** Properties of the catalog and the dispatcher *)

Section Claims.
Context {number : Type} `{NumberOps number} `{Platform number}.

Implicit Types (args : option (gmap string (value number))) (w : World).

Lemma handler_get_current_time args w :
  CallToolRequest_handler "get_current_time" args w =
  match timeString_of (timezone_of args) (format_of args) (reading w) with
  | Normal timeString => (Normal (success_envelope ("Current time: " +:+ timeString)), tick w)
  | Throw e => (Normal (failure_envelope (failure_message e)), tick w)
  end.
Proof.
  unfold CallToolRequest_handler, CallToolRequest_try, try_catch.
  cbn [String.eqb Ascii.eqb Bool.eqb].
  rewrite get_current_time_run.
  destruct (timeString_of _ _ _) as [timeString|e] eqn:E; [reflexivity|].
  apply timeString_of_throws in E as (kind & message & ->). reflexivity.
Qed.

Lemma handler_get_time_info args w :
  CallToolRequest_handler "get_time_info" args w =
  match timeInfo_of (timezone_of args) (reading w) with
  | Normal timeInfo =>
      (Normal (success_envelope (JSON_stringify (VObj timeInfo) 2)), tick w)
  | Throw e => (Normal (failure_envelope (failure_message e)), tick w)
  end.
Proof.
  unfold CallToolRequest_handler, CallToolRequest_try, try_catch.
  cbn [String.eqb Ascii.eqb Bool.eqb].
  rewrite get_time_info_run.
  destruct (timeInfo_of _ _) as [timeInfo|e] eqn:E; [reflexivity|].
  apply timeInfo_of_throws in E as ->. reflexivity.
Qed.

Lemma try_unknown operationName args w :
  dispatches operationName = false ->
  CallToolRequest_try operationName args w =
  (Throw (ThrownError "Error" ("Unknown tool: " +:+ operationName)), w).
Proof.
  unfold dispatches, CallToolRequest_try. intros Hd.
  apply orb_false_elim in Hd as [-> ->]. reflexivity.
Qed.

Lemma dispatches_listed operationName :
  dispatches operationName = true <-> In operationName (map name (tools tools_literal)).
Proof.
  unfold dispatches. cbn [map tools tools_literal name In].
  rewrite orb_true_iff, !String.eqb_eq. intuition.
Qed.

(** C2: a name that is not in the catalog gets a failure envelope with
    [isError = true] and the text ["Error: Unknown tool: {name}"]; the
    handler returns it, nothing is thrown to the caller, and the clock is
    not read. *)
Theorem unknown_tool_failure operationName args w :
  ~ In operationName (map name (tools tools_literal)) ->
  CallToolRequest_handler operationName args w =
  (Normal {| content := [ {| type := "text";
                             text := "Error: Unknown tool: " +:+ operationName |} ];
             isError := Some true |},
   w).
Proof.
  intros Hnot.
  assert (dispatches operationName = false) as Hd.
  { destruct (dispatches operationName) eqn:E; [|reflexivity].
    apply dispatches_listed in E. contradiction. }
  unfold CallToolRequest_handler, try_catch.
  rewrite (try_unknown _ _ _ Hd). reflexivity.
Qed.

(** C3: for every name and every argument bag the handler returns an
    envelope, with exactly one content item, of type ["text"].  Whatever
    the [try] block throws becomes the envelope ["Error: {message}"] with
    [isError = true]; whatever it returns is returned unchanged. *)
Theorem handler_always_returns_envelope operationName args w :
  exists item flag w',
    CallToolRequest_handler operationName args w
    = (Normal {| content := [item]; isError := flag |}, w')
    /\ type item = "text"
    /\ match CallToolRequest_try operationName args w with
       | (Throw e, w'') =>
           text item = "Error: " +:+ failure_message e /\ flag = Some true /\ w' = w''
       | (Normal result, w'') =>
           result = {| content := [item]; isError := flag |} /\ flag = None /\ w' = w''
       end.
Proof.
  unfold CallToolRequest_handler, try_catch.
  destruct (dispatches operationName) eqn:Hd.
  - unfold CallToolRequest_try.
    unfold dispatches in Hd.
    destruct (String.eqb operationName "get_current_time").
    + rewrite get_current_time_run.
      destruct (timeString_of _ _ _) as [s|e] eqn:E.
      * eexists _, _, _. split; [reflexivity|]. cbn. auto.
      * apply timeString_of_throws in E as (kind & message & ->).
        eexists _, _, _. split; [reflexivity|]. cbn. auto.
    + cbn in Hd. rewrite Hd. rewrite get_time_info_run.
      destruct (timeInfo_of _ _) as [timeInfo|e] eqn:E.
      * eexists _, _, _. split; [reflexivity|]. cbn. auto.
      * apply timeInfo_of_throws in E as ->.
        eexists _, _, _. split; [reflexivity|]. cbn. auto.
  - rewrite (try_unknown _ _ _ Hd).
    eexists _, _, _. split; [reflexivity|]. cbn. auto.
Qed.

(** C8: listing the tools reads nothing and cannot fail: in every world it
    returns the same two descriptors and leaves the world as it was.
    [get_current_time] comes first, with [timezone] (default ["system"])
    and [format] (one of ["12hour"], ["24hour"], ["iso"]; default
    ["12hour"]); [get_time_info] second, with [timezone] (default
    ["system"]).  A name the dispatcher serves is the name of exactly one
    descriptor, any other name of none. *)
Theorem catalog_listing w :
  @ListToolsRequest_handler number w = (Normal tools_literal, w)
  /\ map name (tools tools_literal) = ["get_current_time"; "get_time_info"]
  /\ map declared_parameters (tools tools_literal)
     = [ [ ("timezone", None, Some "system");
           ("format", Some ["12hour"; "24hour"; "iso"], Some "12hour") ];
         [ ("timezone", None, Some "system") ] ]
  /\ forall operationName,
       length (List.filter (fun t => String.eqb (name t) operationName) (tools tools_literal))
       = if dispatches operationName then 1%nat else 0%nat.
Proof.
  split; [reflexivity|]. split; [reflexivity|]. split; [reflexivity|].
  intros operationName. unfold dispatches.
  cbn [tools tools_literal List.filter name].
  rewrite (String.eqb_sym "get_current_time"), (String.eqb_sym "get_time_info").
  destruct (String.eqb operationName "get_current_time") eqn:E1;
    destruct (String.eqb operationName "get_time_info") eqn:E2; try reflexivity.
  apply String.eqb_eq in E1, E2. congruence.
Qed.

(** C1 (amended): when the handler's [timezone] is not ["system"], has a
    string form and that identifier is rejected by the host,
    [get_current_time] does not catch the [RangeError]: its block throws,
    and the handler's [catch] turns the throw into the failure envelope
    ([isError = true]).  [get_time_info] catches it inside: its block
    returns, the envelope has no [isError], the serialized record has
    [timezone_error = "Invalid timezone: {timezone}"] and has no
    [timezone_time]. *)
Theorem invalid_timezone_asymmetry args w identifier :
  timezone_of args <> VStr "system" ->
  ToString (timezone_of args) = Some identifier ->
  IsValidTimeZoneName identifier = false ->
  (get_current_time args w
   = (Throw (ThrownError "RangeError" (invalidTimeZoneMessage (timezone_of args))), tick w)
   /\ CallToolRequest_handler "get_current_time" args w
      = (Normal {| content :=
                     [ {| type := "text";
                          text := "Error: " +:+ invalidTimeZoneMessage (timezone_of args) |} ];
                   isError := Some true |},
         tick w))
  /\ (exists timeInfo,
        get_time_info_record (timezone_of args) (reading w) (tick w)
        = (Normal timeInfo, tick w)
        /\ get_time_info args w
           = (Normal {| content := [ {| type := "text";
                                        text := JSON_stringify (VObj timeInfo) 2 |} ];
                        isError := None |},
              tick w)
        /\ CallToolRequest_handler "get_time_info" args w = get_time_info args w
        /\ get_prop timeInfo "timezone_error"
           = Some (VStr ("Invalid timezone: " +:+ identifier))
        /\ get_prop timeInfo "timezone_time" = None).
Proof.
  intros Hsys Hid Hbad. apply strict_eq_str_false in Hsys. split.
  - rewrite handler_get_current_time, get_current_time_run.
    unfold timeString_of. rewrite Hsys, Hid, Hbad. split; reflexivity.
  - exists (system_fields (reading w)
              ++ [("timezone_error", VStr ("Invalid timezone: " +:+ identifier))])%list.
    rewrite handler_get_time_info, get_time_info_run, get_time_info_record_run.
    unfold timeInfo_of, zone_fields. rewrite Hsys, Hid, Hbad.
    repeat (split; [reflexivity|]). reflexivity.
Qed.

Lemma js_or_resolve (argument : option (value number)) (d : string) :
  js_or argument (VStr d) = resolve_parameter argument d.
Proof. destruct argument; reflexivity. Qed.

Lemma resolve_truthy (argument : option (value number)) (d : string) :
  d <> EmptyString -> ToBoolean (resolve_parameter argument d) = true.
Proof.
  intros Hd. destruct argument as [v|]; cbn.
  - destruct (ToBoolean v) eqn:E; [exact E|].
    cbn. apply negb_true_iff, String.eqb_neq, Hd.
  - apply negb_true_iff, String.eqb_neq, Hd.
Qed.

Lemma timezone_of_resolve args :
  timezone_of args
  = resolve_parameter match args with Some m => m !! "timezone" | None => None end "system".
Proof. unfold timezone_of. rewrite js_or_resolve. destruct args; reflexivity. Qed.

Lemma format_of_resolve args :
  format_of args
  = resolve_parameter match args with Some m => m !! "format" | None => None end "12hour".
Proof. unfold format_of. rewrite js_or_resolve. destruct args; reflexivity. Qed.

(** C4: what each handler does is fixed by its declared parameters as
    resolved by [resolve_parameter] from the argument bag: [timezone] is
    ["system"] when the argument is missing or falsy and the argument
    itself otherwise, [format] likewise with ["12hour"].  The resolved
    values reach the host and the record as they are: [timezone] is the
    [timeZone] option and the [requested_timezone] field, uncoerced, and
    [format] is only compared with [===].  Hence a call also behaves
    exactly like the call in which the resolved values are passed. *)
Theorem defaults_for_missing_or_falsy args w :
  let argument (key : string) :=
    match args with
    | Some m => m !! key
    | None => None
    end in
  let timezone := resolve_parameter (argument "timezone") "system" in
  let format := resolve_parameter (argument "format") "12hour" in
  let now := clock w (samples w) in
  CallToolRequest_handler "get_current_time" args w
  = (Normal
       (if strict_eq_str timezone "system" then
          success_envelope
            ("Current time: " +:+
             if strict_eq_str format "iso" then Date_toISOString now
             else if strict_eq_str format "24hour" then
               render_toLocaleString (Some "en-US") (hour12_options false) now
             else render_toLocaleString (Some "en-US") (hour12_options true) now)
        else
          match ToString timezone with
          | Some identifier =>
              if IsValidTimeZoneName identifier then
                success_envelope
                  ("Current time: " +:+
                   render_toLocaleString (Some "en-US")
                     {| timeZone := Some timezone;
                        weekday := None;
                        year := Some "numeric";
                        month := Some "2-digit";
                        day := Some "2-digit";
                        hour := Some "2-digit";
                        minute := Some "2-digit";
                        second := Some "2-digit";
                        hour12 := Some (strict_eq_str format "12hour");
                        timeZoneName := None |} now)
              else failure_envelope (invalidTimeZoneMessage timezone)
          | None => failure_envelope (cannotConvertMessage timezone)
          end),
     tick w)
  /\ CallToolRequest_handler "get_time_info" args w
     = (Normal
          match ToString timezone with
          | Some identifier =>
              success_envelope
                (JSON_stringify
                   (VObj
                      (system_fields now
                       ++ if strict_eq_str timezone "system" then []
                          else if IsValidTimeZoneName identifier then
                            [ ("timezone_time",
                               VStr (render_DateTimeFormat (Some "en-US")
                                       {| timeZone := Some timezone;
                                          weekday := None;
                                          year := Some "numeric";
                                          month := Some "2-digit";
                                          day := Some "2-digit";
                                          hour := Some "2-digit";
                                          minute := Some "2-digit";
                                          second := Some "2-digit";
                                          hour12 := None;
                                          timeZoneName := Some "short" |} now));
                              ("requested_timezone", timezone) ]
                          else
                            [ ("timezone_error",
                               VStr ("Invalid timezone: " +:+ identifier)) ])%list)
                   2)
          | None => failure_envelope (cannotConvertMessage timezone)
          end,
        tick w)
  /\ CallToolRequest_handler "get_current_time" args w
     = CallToolRequest_handler "get_current_time"
         (Some {[ "timezone" := timezone; "format" := format ]}) w
  /\ CallToolRequest_handler "get_time_info" args w
     = CallToolRequest_handler "get_time_info" (Some {[ "timezone" := timezone ]}) w.
Proof.
  intros argument timezone format now.
  assert (timezone_of args = timezone) as Htz by apply timezone_of_resolve.
  assert (format_of args = format) as Hfmt by apply format_of_resolve.
  assert (ToBoolean timezone = true) as Ttz by (apply resolve_truthy; discriminate).
  assert (ToBoolean format = true) as Tfmt by (apply resolve_truthy; discriminate).
  split; [|split; [|split]].
  - rewrite handler_get_current_time, Htz, Hfmt. unfold timeString_of.
    fold now. destruct (strict_eq_str timezone "system"); cbn [negb].
    + destruct (strict_eq_str format "iso"); [reflexivity|].
      destruct (strict_eq_str format "24hour"); reflexivity.
    + destruct (ToString timezone) as [identifier|]; [|reflexivity].
      destruct (IsValidTimeZoneName identifier); reflexivity.
  - rewrite handler_get_time_info, Htz. unfold timeInfo_of, zone_fields.
    fold now. destruct (ToString timezone) as [identifier|]; [|reflexivity].
    destruct (strict_eq_str timezone "system"); [reflexivity|].
    destruct (IsValidTimeZoneName identifier); reflexivity.
  - rewrite !handler_get_current_time.
    assert (timezone_of (Some {[ "timezone" := timezone; "format" := format ]}) = timezone)
      as ->.
    { unfold timezone_of, opt_get. rewrite lookup_insert_eq. cbn. rewrite Ttz. reflexivity. }
    assert (format_of (Some {[ "timezone" := timezone; "format" := format ]}) = format)
      as ->.
    { unfold format_of, opt_get. rewrite lookup_insert_ne by discriminate.
      rewrite lookup_singleton_eq. cbn. rewrite Tfmt. reflexivity. }
    rewrite Htz, Hfmt. reflexivity.
  - rewrite !handler_get_time_info.
    assert (timezone_of (Some {[ "timezone" := timezone ]}) = timezone) as ->.
    { unfold timezone_of, opt_get. rewrite lookup_singleton_eq. cbn. rewrite Ttz.
      reflexivity. }
    rewrite Htz. reflexivity.
Qed.

(** C5 (amended): when the handler's [timezone] is not ["system"] and the
    host accepts it (its string form is a valid time zone name), the ISO
    branch is not taken whatever [format] is: the
    text is ["Current time: "] followed by the host's rendering of the one
    sampled instant for locale [en-US] in the named time zone, with year,
    month, day, hour, minute and second requested in numeric forms and
    [hour12] true exactly when [format] is the string ["12hour"]. *)
Theorem named_zone_time args w identifier :
  timezone_of args <> VStr "system" ->
  ToString (timezone_of args) = Some identifier ->
  IsValidTimeZoneName identifier = true ->
  exists twelve,
    (twelve = true <-> format_of args = VStr "12hour")
    /\ CallToolRequest_handler "get_current_time" args w
       = (Normal
            {| content :=
                 [ {| type := "text";
                      text := "Current time: " +:+
                        render_toLocaleString (Some "en-US")
                          {| timeZone := Some (timezone_of args);
                             weekday := None;
                             year := Some "numeric";
                             month := Some "2-digit";
                             day := Some "2-digit";
                             hour := Some "2-digit";
                             minute := Some "2-digit";
                             second := Some "2-digit";
                             hour12 := Some twelve;
                             timeZoneName := None |}
                          (reading w) |} ];
               isError := None |},
          tick w).
Proof.
  intros Hsys Hid Hok. apply strict_eq_str_false in Hsys.
  exists (strict_eq_str (format_of args) "12hour"). split.
  - apply strict_eq_str_true.
  - rewrite handler_get_current_time. unfold timeString_of.
    rewrite Hsys, Hid, Hok. reflexivity.
Qed.

(** C6 (amended): when the handler's [timezone] is ["system"], the text is
    ["Current time: "] followed by: the ISO-8601 UTC string of the sampled
    instant when [format] is ["iso"]; the host's rendering for locale
    [en-US] in the host's own time zone with [hour12 = false] when [format]
    is ["24hour"]; the same rendering with [hour12 = true] for every other
    [format]. *)
Theorem system_zone_time args w :
  timezone_of args = VStr "system" ->
  CallToolRequest_handler "get_current_time" args w
  = (Normal
       {| content :=
            [ {| type := "text";
                 text := "Current time: " +:+
                   if strict_eq_str (format_of args) "iso" then
                     Date_toISOString (reading w)
                   else if strict_eq_str (format_of args) "24hour" then
                     render_toLocaleString (Some "en-US") (hour12_options false) (reading w)
                   else
                     render_toLocaleString (Some "en-US") (hour12_options true) (reading w)
              |} ];
          isError := None |},
     tick w).
Proof.
  intros Hsys. rewrite handler_get_current_time. unfold timeString_of.
  rewrite Hsys. cbn [strict_eq_str String.eqb Ascii.eqb Bool.eqb negb].
  destruct (strict_eq_str (format_of args) "iso"); [reflexivity|].
  destruct (strict_eq_str (format_of args) "24hour"); reflexivity.
Qed.

(** C7 (amended): a [get_time_info] call succeeds exactly when its
    [timezone] has a string form, and then its text is the [timeInfo]
    object serialized with two-space indentation, one property per line,
    in this order: epoch milliseconds, ISO-8601 string, the
    host-default-locale date-time string, the [en-US] full weekday name,
    the [en-US] date string, year, month (1-based: 1 to 12), day, hour
    (0 to 23), minute, second, the host's time zone offset in minutes
    (positive behind UTC); then, only when [timezone] is not
    ["system"], either [timezone_time] and [requested_timezone] or
    [timezone_error].  A [timezone] without a string form gives the
    failure envelope. *)
Theorem time_info_text args w :
  let now := reading w in
  let timezone := timezone_of args in
  match ToString timezone with
  | Some identifier =>
      let fields :=
        ([ ("timestamp", VNum (Number_ofZ now));
           ("iso_string", VStr (Date_toISOString now));
           ("local_time", VStr (render_toLocaleString None no_options now));
           ("day_of_week",
            VStr (render_toLocaleDateString (Some "en-US") weekday_long_options now));
           ("date", VStr (render_toLocaleDateString (Some "en-US") no_options now));
           ("year", VNum (Number_ofZ (Date_getFullYear now)));
           ("month", VNum (Number_ofZ (Date_getMonth now + 1)));
           ("day", VNum (Number_ofZ (Date_getDate now)));
           ("hour", VNum (Number_ofZ (Date_getHours now)));
           ("minute", VNum (Number_ofZ (Date_getMinutes now)));
           ("second", VNum (Number_ofZ (Date_getSeconds now)));
           ("timezone_offset", VNum (Number_ofZ (Date_getTimezoneOffset now))) ]
         ++ (if strict_eq_str timezone "system" then []
             else if IsValidTimeZoneName identifier then
               [ ("timezone_time",
                  VStr (render_DateTimeFormat (Some "en-US")
                          (short_zone_name_options timezone) now));
                 ("requested_timezone", timezone) ]
             else
               [ ("timezone_error", VStr ("Invalid timezone: " +:+ identifier)) ]))%list
      in
      CallToolRequest_handler "get_time_info" args w
      = (Normal {| content := [ {| type := "text";
                                   text := JSON_stringify (VObj fields) 2 |} ];
                   isError := None |},
         tick w)
      /\ JSON_stringify (VObj fields) 2
         = "{" +:+ newline +:+ "  "
           +:+ separated ("," +:+ newline +:+ "  ") (map (member "  " "  ") fields)
           +:+ newline +:+ "}"
  | None =>
      CallToolRequest_handler "get_time_info" args w
      = (Normal {| content := [ {| type := "text";
                                   text := "Error: " +:+ cannotConvertMessage timezone |} ];
                   isError := Some true |},
         tick w)
  end
  /\ (1 <= Date_getMonth now + 1 <= 12)%Z
  /\ (0 <= Date_getHours now <= 23)%Z.
Proof.
  intros now timezone. split; [|split].
  - rewrite handler_get_time_info. unfold timeInfo_of, zone_fields.
    fold timezone now.
    destruct (ToString timezone) as [identifier|]; [|reflexivity].
    cbv zeta. split.
    + destruct (strict_eq_str timezone "system"); [reflexivity|].
      destruct (IsValidTimeZoneName identifier); reflexivity.
    + unfold JSON_stringify. cbn [app]. rewrite SerializeJSON_object. reflexivity.
  - pose proof (Date_getMonth_range now). lia.
  - apply Date_getHours_range.
Qed.


(** C10: only the declared parameters are read.  Two argument bags with
    the same [timezone] entry give the same [get_time_info] result in the
    same world, and if they also have the same [format] entry, the same
    [get_current_time] result, whatever other keys they hold. *)
Theorem undeclared_keys_ignored args1 args2 w :
  opt_get args1 "timezone" = opt_get args2 "timezone" ->
  CallToolRequest_handler "get_time_info" args1 w
  = CallToolRequest_handler "get_time_info" args2 w
  /\ (opt_get args1 "format" = opt_get args2 "format" ->
      CallToolRequest_handler "get_current_time" args1 w
      = CallToolRequest_handler "get_current_time" args2 w).
Proof.
  intros Htz. split.
  - rewrite !handler_get_time_info. unfold timezone_of. rewrite Htz. reflexivity.
  - intros Hfmt. rewrite !handler_get_current_time.
    unfold timezone_of, format_of. rewrite Htz, Hfmt. reflexivity.
Qed.

End Claims.

(** ** Properties of the logging revision *)

Section LoggingProperties.
Context {number : Type} `{NumberOps number} `{Platform number}.

Implicit Types (args : option (list (string * value number))) (w : World)
  (p : LoggedWorld).

Lemma advance_0 w : advance 0 w = w.
Proof. destruct w as [c n]. unfold advance. cbn. rewrite Nat.add_0_r. reflexivity. Qed.

Lemma advance_S n w : advance (S n) w = tick (advance n w).
Proof. unfold advance, tick. cbn. rewrite Nat.add_succ_r. reflexivity. Qed.

Lemma reading_advance n w : reading (advance n w) = reading_at n w.
Proof. reflexivity. Qed.

Lemma reading_at_0 w : reading_at 0 w = reading w.
Proof. unfold reading_at, reading. rewrite Nat.add_0_r. reflexivity. Qed.

Lemma get_prop_list_to_map (props : list (string * value number)) (key : string) :
  (list_to_map props : gmap string (value number)) !! key = get_prop props key.
Proof.
  induction props as [|[k v] props IH]; [reflexivity|].
  cbn [list_to_map foldr get_prop uncurry Datatypes.uncurry].
  destruct (String.eqb k key) eqn:E.
  - apply String.eqb_eq in E. subst. apply lookup_insert_eq.
  - apply String.eqb_neq in E. rewrite lookup_insert_ne by exact E. exact IH.
Qed.

Lemma opt_get_bag_of args key : opt_get (bag_of args) key = opt_get_prop args key.
Proof. destruct args as [props|]; [apply get_prop_list_to_map | reflexivity]. Qed.

(** What one [log] call does. *)
Lemma log_run level message data p :
  log level message data p
  = (Normal tt,
     {| lw_world := tick (lw_world p);
        lw_stderr :=
          (lw_stderr p
           ++ log_line (reading (lw_world p)) level message
              :: match data with
                 | Some d => if data_truthy d then [data_stringify d] else []
                 | None => []
                 end)%list |}).
Proof.
  unfold log, lbind, lift, new_Date, console_error, lret, log_line.
  cbn [lw_world lw_stderr].
  destruct data as [d|]; [destruct (data_truthy d)|]; cbn [lw_world lw_stderr];
    try rewrite <- app_assoc; reflexivity.
Qed.

Ltac lrun :=
  unfold lbind, lift, lret, lthrow, ltry_catch, new_Date,
    Date_toLocaleString, check_timeZone, ToString_M, bind, ret, throw;
  cbn [lw_world lw_stderr timeZone].

Lemma get_current_time_logged_run args p :
  get_current_time_logged args p
  = let w := lw_world p in
    let timezone := js_or (opt_get_prop args "timezone") (VStr "system") in
    let format := js_or (opt_get_prop args "format") (VStr "12hour") in
    match ToString timezone with
    | None =>
        (Throw (ThrownError "TypeError" (cannotConvertMessage timezone)),
         {| lw_world := w; lw_stderr := lw_stderr p |})
    | Some timezone_text =>
        match ToString format with
        | None =>
            (Throw (ThrownError "TypeError" (cannotConvertMessage format)),
             {| lw_world := w; lw_stderr := lw_stderr p |})
        | Some format_text =>
            let announce :=
              log_line (reading w) "INFO"
                ("Getting current time - timezone: " +:+ timezone_text
                 +:+ ", format: " +:+ format_text) in
            match timeString_of timezone format (reading (tick w)) with
            | Normal timeString =>
                (Normal (success_envelope ("Current time: " +:+ timeString)),
                 {| lw_world := tick (tick (tick w));
                    lw_stderr :=
                      (lw_stderr p
                       ++ [ announce;
                            log_line (reading (tick (tick w))) "INFO"
                              ("Returning time: " +:+ timeString) ])%list |})
            | Throw e =>
                (Throw e,
                 {| lw_world := tick (tick w);
                    lw_stderr := (lw_stderr p ++ [announce])%list |})
            end
        end
    end.
Proof.
  cbv zeta. unfold get_current_time_logged.
  unfold lbind at 1. unfold lift at 1, ToString_M at 1.
  destruct (ToString (js_or (opt_get_prop args "timezone") (VStr "system")))
    as [timezone_text|] eqn:Htz; [|reflexivity].
  unfold ret at 1. cbn [lw_world lw_stderr].
  unfold lbind at 1. unfold lift at 1, ToString_M at 1.
  destruct (ToString (js_or (opt_get_prop args "format") (VStr "12hour")))
    as [format_text|] eqn:Hfmt; [|reflexivity].
  unfold ret at 1. cbn [lw_world lw_stderr].
  unfold lbind at 1. rewrite log_run. cbn [lw_world lw_stderr].
  unfold timeString_of, named_zone_options, hour12_options.
  destruct (strict_eq_str (js_or (opt_get_prop args "timezone") (VStr "system")) "system");
    cbn [negb].
  - destruct (strict_eq_str (js_or (opt_get_prop args "format") (VStr "12hour")) "iso").
    + lrun. rewrite log_run. cbn [lw_world lw_stderr].
      rewrite <- app_assoc. reflexivity.
    + destruct (strict_eq_str (js_or (opt_get_prop args "format") (VStr "12hour"))
                  "24hour");
        lrun; rewrite log_run; cbn [lw_world lw_stderr];
        rewrite <- app_assoc; reflexivity.
  - lrun. rewrite Htz. destruct (IsValidTimeZoneName _).
    + rewrite log_run. cbn [lw_world lw_stderr]. rewrite <- app_assoc. reflexivity.
    + reflexivity.
Qed.

Lemma get_time_info_logged_run args p :
  get_time_info_logged args p
  = let w := lw_world p in
    let timezone := js_or (opt_get_prop args "timezone") (VStr "system") in
    match ToString timezone with
    | None =>
        (Throw (ThrownError "TypeError" (cannotConvertMessage timezone)),
         {| lw_world := w; lw_stderr := lw_stderr p |})
    | Some timezone_text =>
        (Normal (success_envelope
                   (JSON_stringify
                      (VObj (system_fields (reading (tick w))
                               ++ zone_fields timezone (reading (tick w)))%list) 2)),
         {| lw_world := tick (tick (tick w));
            lw_stderr :=
              (lw_stderr p
               ++ [ log_line (reading w) "INFO"
                      ("Getting detailed time info - timezone: " +:+ timezone_text);
                    log_line (reading (tick (tick w))) "INFO"
                      "Returning detailed time info" ])%list |})
    end.
Proof.
  cbv zeta. unfold get_time_info_logged.
  unfold lbind at 1. unfold lift at 1, ToString_M at 1.
  destruct (ToString (js_or (opt_get_prop args "timezone") (VStr "system")))
    as [timezone_text|] eqn:Htz; [|reflexivity].
  unfold ret at 1. cbn [lw_world lw_stderr].
  unfold lbind at 1. rewrite log_run. cbn [lw_world lw_stderr].
  unfold lbind, lift, new_Date. cbn [lw_world lw_stderr].
  rewrite get_time_info_record_run. unfold timeInfo_of. rewrite Htz.
  cbn [lw_world lw_stderr].
  rewrite log_run. cbn [lw_world lw_stderr]. rewrite <- app_assoc. reflexivity.
Qed.

(** The whole run of the logged dispatcher, by cases. *)
Lemma handler_logged_run name args p :
  CallToolRequest_handler_logged name args p
  = let w := lw_world p in
    let received :=
      (log_line (reading w) "INFO" ("Received tool call: " +:+ name)
       :: arguments_dump args)%list in
    let failed (kind message : string) (w' : World) (lines : list string) :=
      (Normal (failure_envelope message),
       {| lw_world := tick w';
          lw_stderr :=
            (lw_stderr p ++ received ++ lines
             ++ [ log_line (reading w') "ERROR" ("Tool execution failed: " +:+ name);
                  "{}" ])%list |}) in
    let timezone := js_or (opt_get_prop args "timezone") (VStr "system") in
    let format := js_or (opt_get_prop args "format") (VStr "12hour") in
    if String.eqb name "get_current_time" then
      match ToString timezone with
      | None => failed "TypeError" (cannotConvertMessage timezone) (tick w) []
      | Some timezone_text =>
          match ToString format with
          | None => failed "TypeError" (cannotConvertMessage format) (tick w) []
          | Some format_text =>
              let announce :=
                log_line (reading (tick w)) "INFO"
                  ("Getting current time - timezone: " +:+ timezone_text
                   +:+ ", format: " +:+ format_text) in
              match timeString_of timezone format (reading (tick (tick w))) with
              | Normal timeString =>
                  (Normal (success_envelope ("Current time: " +:+ timeString)),
                   {| lw_world := tick (tick (tick (tick w)));
                      lw_stderr :=
                        (lw_stderr p ++ received
                         ++ [ announce;
                              log_line (reading (tick (tick (tick w)))) "INFO"
                                ("Returning time: " +:+ timeString) ])%list |})
              | Throw e =>
                  failed "RangeError" (failure_message e) (tick (tick (tick w))) [announce]
              end
          end
      end
    else if String.eqb name "get_time_info" then
      match ToString timezone with
      | None => failed "TypeError" (cannotConvertMessage timezone) (tick w) []
      | Some timezone_text =>
          (Normal (success_envelope
                     (JSON_stringify
                        (VObj (system_fields (reading (tick (tick w)))
                                 ++ zone_fields timezone (reading (tick (tick w))))%list)
                        2)),
           {| lw_world := tick (tick (tick (tick w)));
              lw_stderr :=
                (lw_stderr p ++ received
                 ++ [ log_line (reading (tick w)) "INFO"
                        ("Getting detailed time info - timezone: " +:+ timezone_text);
                      log_line (reading (tick (tick (tick w)))) "INFO"
                        "Returning detailed time info" ])%list |})
      end
    else
      failed "Error" ("Unknown tool: " +:+ name) (tick w) [].
Proof.
  cbv zeta. unfold CallToolRequest_handler_logged.
  unfold lbind at 1. rewrite log_run. cbn [lw_world lw_stderr].
  assert (match
            match args with
            | Some props => Some (DataJSON (VObj props))
            | None => None
            end
          with
          | Some d => if data_truthy d then [data_stringify d] else []
          | None => []
          end = arguments_dump args) as -> by (destruct args; reflexivity).
  unfold ltry_catch.
  destruct (String.eqb name "get_current_time").
  - rewrite get_current_time_logged_run. cbv zeta. cbn [lw_world lw_stderr].
    destruct (ToString (js_or (opt_get_prop args "timezone") (VStr "system")))
      as [timezone_text|].
    + destruct (ToString (js_or (opt_get_prop args "format") (VStr "12hour")))
        as [format_text|].
      * destruct (timeString_of _ _ _) as [timeString|e] eqn:E.
        -- rewrite <- !app_assoc. reflexivity.
        -- apply timeString_of_throws in E as (kind & message & ->).
           unfold lbind at 1. rewrite log_run. cbn [lw_world lw_stderr].
           lrun. rewrite <- !app_assoc. reflexivity.
      * unfold lbind at 1. rewrite log_run. cbn [lw_world lw_stderr].
        lrun. rewrite <- !app_assoc. reflexivity.
    + unfold lbind at 1. rewrite log_run. cbn [lw_world lw_stderr].
      lrun. rewrite <- !app_assoc. reflexivity.
  - destruct (String.eqb name "get_time_info").
    + rewrite get_time_info_logged_run. cbv zeta. cbn [lw_world lw_stderr].
      destruct (ToString (js_or (opt_get_prop args "timezone") (VStr "system")))
        as [timezone_text|].
      * rewrite <- !app_assoc. reflexivity.
      * unfold lbind at 1. rewrite log_run. cbn [lw_world lw_stderr].
        lrun. rewrite <- !app_assoc. reflexivity.
    + unfold lthrow. unfold lbind at 1. rewrite log_run. cbn [lw_world lw_stderr].
      lrun. rewrite <- !app_assoc. reflexivity.
Qed.

Lemma tick_tick w : tick (tick w) = advance 2 w.
Proof. rewrite !advance_S, advance_0. reflexivity. Qed.

Lemma tick_4 w : tick (tick (tick (tick w))) = advance 4 w.
Proof. rewrite !advance_S, advance_0. reflexivity. Qed.

(** X1: when [format] has a string form, the [log] calls do not change
    what a tool call answers.  The logging revision then returns the
    envelope that the first revision returns for the same name and
    arguments once the clock has been read twice more: the two [log] calls
    that precede [new Date()] each take a reading of their own. *)
Theorem logging_preserves_response name args p format_text :
  ToString (js_or (opt_get_prop args "format") (VStr "12hour")) = Some format_text ->
  fst (CallToolRequest_handler_logged name args p)
  = fst (CallToolRequest_handler name (bag_of args) (advance 2 (lw_world p))).
Proof.
  intros Hfmt. rewrite handler_logged_run. cbv zeta.
  unfold CallToolRequest_handler, CallToolRequest_try, try_catch.
  destruct (String.eqb name "get_current_time").
  - rewrite get_current_time_run. unfold timezone_of, format_of.
    rewrite !opt_get_bag_of, <- tick_tick, Hfmt.
    destruct (ToString (js_or (opt_get_prop args "timezone") (VStr "system")))
      as [timezone_text|] eqn:Htz.
    + destruct (timeString_of _ _ _) as [timeString|e] eqn:E; [reflexivity|].
      apply timeString_of_throws in E as (kind & message & ->). reflexivity.
    + unfold timeString_of. rewrite Htz.
      destruct (strict_eq_str _ "system") eqn:Hsys; [|reflexivity].
      apply strict_eq_str_true in Hsys. rewrite Hsys in Htz. discriminate Htz.
  - destruct (String.eqb name "get_time_info").
    + rewrite get_time_info_run. unfold timezone_of.
      rewrite !opt_get_bag_of, <- tick_tick. unfold timeInfo_of.
      destruct (ToString (js_or (opt_get_prop args "timezone") (VStr "system")));
        reflexivity.
    + reflexivity.
Qed.

(** X2: a logged call of a known tool reads the clock four times (three
    log lines and the handler's own [new Date()]), whether the formatting
    succeeds or fails, provided the first [log] message of the tool can be
    built; when it cannot, and for an unknown tool, the clock is read twice
    (the two log lines around the failure). *)
Theorem logged_clock_readings name args p :
  lw_world (snd (CallToolRequest_handler_logged name args p))
  = advance (if dispatches name && announce_converts name args then 4 else 2)
      (lw_world p).
Proof.
  rewrite handler_logged_run. cbv zeta. unfold dispatches, announce_converts.
  destruct (String.eqb name "get_current_time"); cbn [orb andb].
  - destruct (ToString (js_or (opt_get_prop args "timezone") (VStr "system")));
      [|apply tick_tick].
    destruct (ToString (js_or (opt_get_prop args "format") (VStr "12hour")));
      [|apply tick_tick].
    destruct (timeString_of _ _ _); cbn [snd lw_world]; apply tick_4.
  - destruct (String.eqb name "get_time_info"); cbn [snd lw_world andb];
      [|apply tick_tick].
    destruct (ToString _); cbn [snd lw_world]; [apply tick_4 | apply tick_tick].
Qed.

(** X11: the two revisions answer differently when [format] has no
    string form.  With the system time zone the first revision never
    converts [format] (it only compares it with [===]) and answers with the
    12-hour time; the logging revision fails while building its first log
    message and answers with the failure envelope carrying the host's
    [TypeError] message, after two clock readings. *)
Theorem unconvertible_format_diverges args p :
  js_or (opt_get_prop args "timezone") (VStr "system") = VStr "system" ->
  ToString (js_or (opt_get_prop args "format") (VStr "12hour")) = None ->
  fst (CallToolRequest_handler "get_current_time" (bag_of args) (lw_world p))
  = Normal {| content :=
                [ {| type := "text";
                     text := "Current time: " +:+
                             render_toLocaleString (Some "en-US") (hour12_options true)
                               (reading (lw_world p)) |} ];
              isError := None |}
  /\ fst (CallToolRequest_handler_logged "get_current_time" args p)
     = Normal {| content :=
                   [ {| type := "text";
                        text := "Error: " +:+
                                cannotConvertMessage
                                  (js_or (opt_get_prop args "format") (VStr "12hour")) |} ];
                 isError := Some true |}
  /\ lw_world (snd (CallToolRequest_handler_logged "get_current_time" args p))
     = advance 2 (lw_world p).
Proof.
  intros Hsys Hfmt.
  assert (forall s : string,
             strict_eq_str (js_or (opt_get_prop args "format") (VStr "12hour")) s = false)
    as Hne.
  { intros s. apply strict_eq_str_false. intros E. rewrite E in Hfmt. discriminate Hfmt. }
  split; [|split].
  - unfold CallToolRequest_handler, CallToolRequest_try, try_catch.
    cbn [String.eqb Ascii.eqb Bool.eqb].
    rewrite get_current_time_run. unfold timezone_of, format_of, timeString_of.
    rewrite !opt_get_bag_of, Hsys, !Hne. reflexivity.
  - rewrite handler_logged_run. cbv zeta. cbn [String.eqb Ascii.eqb Bool.eqb].
    rewrite Hsys, Hfmt. reflexivity.
  - rewrite handler_logged_run. cbv zeta. cbn [String.eqb Ascii.eqb Bool.eqb].
    rewrite Hsys, Hfmt. cbn [snd lw_world ToString]. apply tick_tick.
Qed.

(** X3: every logged call first writes the line
    ["[{ISO time}] INFO: Received tool call: {name}"], stamped with the
    first clock reading, then the two-space-indented JSON of the argument
    object when the request has one (also when it is empty), and at least
    one more line; what was on stderr before is kept in front. *)
Theorem logged_request_line name args p :
  exists line rest,
    lw_stderr (snd (CallToolRequest_handler_logged name args p))
    = (lw_stderr p
       ++ ("[" +:+ Date_toISOString (clock (lw_world p) (samples (lw_world p)))
           +:+ "] INFO: Received tool call: " +:+ name)
          :: match args with
             | Some props => [ JSON_stringify (VObj props) 2 ]
             | None => []
             end
          ++ line :: rest)%list.
Proof.
  rewrite handler_logged_run. cbv zeta.
  repeat match goal with
         | |- context [if String.eqb ?a ?b then _ else _] => destruct (String.eqb a b)
         | |- context [match ToString ?v with _ => _ end] => destruct (ToString v)
         | |- context [match timeString_of ?a ?b ?c with _ => _ end] =>
             destruct (timeString_of a b c)
         end;
    cbn [snd lw_stderr]; eexists _, _; cbn [app]; reflexivity.
Qed.

(** X4: the last thing a logged call writes announces its outcome.  When
    the answer is a failure envelope, the last two lines are
    ["[{ISO time}] ERROR: Tool execution failed: {name}"] and the dump
    ["{}"] of the caught error; when it is a success envelope, the last
    line is an [INFO] line beginning with ["Returning "].  Either line is
    stamped with the last clock reading the call took. *)
Theorem logged_outcome_line name args p :
  let run := CallToolRequest_handler_logged name args p in
  let last := clock (lw_world p) (Nat.pred (samples (lw_world (snd run)))) in
  exists envelope before,
    fst run = Normal envelope
    /\ match isError envelope with
       | Some _ =>
           lw_stderr (snd run)
           = (lw_stderr p ++ before
              ++ [ "[" +:+ Date_toISOString last +:+ "] ERROR: Tool execution failed: "
                   +:+ name;
                   "{}" ])%list
       | None =>
           exists message,
             lw_stderr (snd run)
             = (lw_stderr p ++ before
                ++ [ "[" +:+ Date_toISOString last +:+ "] INFO: Returning "
                     +:+ message ])%list
       end.
Proof.
  cbv zeta. rewrite handler_logged_run. cbv zeta.
  assert (forall (before tail : list string) (x : string),
             ((x :: before) ++ tail = x :: before ++ tail)%list) as Hcons
    by reflexivity.
  destruct (String.eqb name "get_current_time").
  - destruct (ToString (js_or (opt_get_prop args "timezone") (VStr "system")))
      as [timezone_text|].
    + destruct (ToString (js_or (opt_get_prop args "format") (VStr "12hour")))
        as [format_text|].
      * destruct (timeString_of _ _ _) as [timeString|e];
          cbn [fst snd lw_world lw_stderr].
        -- eexists _, (_ :: (arguments_dump args ++ [_]))%list. split; [reflexivity|].
           cbn [isError success_envelope]. exists ("time: " +:+ timeString).
           cbn [app]. rewrite <- ?app_assoc. reflexivity.
        -- eexists _, (_ :: (arguments_dump args ++ [_]))%list. split; [reflexivity|].
           cbn [isError failure_envelope].
           cbn [app]. rewrite <- ?app_assoc. reflexivity.
      * cbn [fst snd lw_world lw_stderr].
        eexists _, (_ :: arguments_dump args)%list. split; [reflexivity|].
        cbn [isError failure_envelope]. cbn [app]. reflexivity.
    + cbn [fst snd lw_world lw_stderr].
      eexists _, (_ :: arguments_dump args)%list. split; [reflexivity|].
      cbn [isError failure_envelope]. cbn [app]. reflexivity.
  - destruct (String.eqb name "get_time_info").
    + destruct (ToString (js_or (opt_get_prop args "timezone") (VStr "system")))
        as [timezone_text|]; cbn [fst snd lw_world lw_stderr].
      * eexists _, (_ :: (arguments_dump args ++ [_]))%list. split; [reflexivity|].
        cbn [isError success_envelope]. exists "detailed time info".
        cbn [app]. rewrite <- ?app_assoc. reflexivity.
      * eexists _, (_ :: arguments_dump args)%list. split; [reflexivity|].
        cbn [isError failure_envelope]. cbn [app]. reflexivity.
    + cbn [fst snd lw_world lw_stderr].
      eexists _, (_ :: arguments_dump args)%list. split; [reflexivity|].
      cbn [isError failure_envelope]. cbn [app]. reflexivity.
Qed.

(** X5: the logged listing returns the same catalog as the first
    revision, reads the clock twice and writes exactly two lines, the
    second of which reports the number of tools it returns. *)
Theorem list_tools_logged p :
  exists result,
    fst (ListToolsRequest_handler_logged p) = Normal result
    /\ fst (@ListToolsRequest_handler number (lw_world p)) = Normal result
    /\ lw_world (snd (ListToolsRequest_handler_logged p)) = advance 2 (lw_world p)
    /\ lw_stderr (snd (ListToolsRequest_handler_logged p))
       = (lw_stderr p
          ++ [ "[" +:+ Date_toISOString (reading_at 0 (lw_world p))
               +:+ "] INFO: Received tools/list request";
               "[" +:+ Date_toISOString (reading_at 1 (lw_world p))
               +:+ "] INFO: Returning "
               +:+ Number_toString (Number_ofZ (Z.of_nat (length (tools result))))
               +:+ " available tools" ])%list.
Proof.
  exists tools_literal.
  unfold ListToolsRequest_handler_logged, lbind.
  rewrite log_run. cbn [lw_world lw_stderr]. rewrite log_run. cbn [lw_world lw_stderr].
  unfold lret. cbn [fst snd lw_world lw_stderr].
  split; [reflexivity|]. split; [reflexivity|]. split; [apply tick_tick|].
  rewrite <- app_assoc, reading_at_0.
  replace (reading_at 1 (lw_world p)) with (reading (tick (lw_world p))).
  - reflexivity.
  - unfold reading_at, reading, tick. cbn. rewrite Nat.add_1_r. reflexivity.
Qed.

End LoggingProperties.

(** ** Further properties of the first revision *)

Section FurtherProperties.
Context {number : Type} `{NumberOps number} `{Platform number}.

Implicit Types (args : option (gmap string (value number))) (w : World)
  (m : gmap string (value number)).

Lemma timezone_of_insert_format m (v : value number) :
  timezone_of (Some (<["format" := v]> m)) = timezone_of (Some m).
Proof.
  unfold timezone_of, opt_get. rewrite lookup_insert_ne by discriminate. reflexivity.
Qed.

Lemma format_of_insert_timezone m (v : value number) :
  format_of (Some (<["timezone" := v]> m)) = format_of (Some m).
Proof.
  unfold format_of, opt_get. rewrite lookup_insert_ne by discriminate. reflexivity.
Qed.

Lemma timezone_of_insert_default m :
  m !! "timezone" = None ->
  timezone_of (Some (<["timezone" := VStr "system"]> m)) = timezone_of (Some m).
Proof.
  intros Hm. unfold timezone_of, opt_get. rewrite lookup_insert_eq, Hm. reflexivity.
Qed.

Lemma format_of_insert_default m :
  m !! "format" = None ->
  format_of (Some (<["format" := VStr "12hour"]> m)) = format_of (Some m).
Proof.
  intros Hm. unfold format_of, opt_get. rewrite lookup_insert_eq, Hm. reflexivity.
Qed.

(** X6: the defaults the catalog declares are the defaults the dispatcher
    applies.  For every listed tool and every parameter its schema
    declares with a default, a call that omits the parameter answers
    exactly like the call that passes the declared default. *)
Theorem declared_defaults_honoured (t : Tool) (parameter : string)
    (schema : PropertySchema) (d : string) m w :
  In t (tools tools_literal) ->
  In (parameter, schema) (properties (inputSchema t)) ->
  default schema = Some d ->
  m !! parameter = None ->
  CallToolRequest_handler (name t) (Some m) w
  = CallToolRequest_handler (name t) (Some (<[parameter := VStr d]> m)) w.
Proof.
  intros Ht Hp Hd Hm.
  cbn [tools tools_literal In] in Ht. destruct Ht as [<-|[<-|[]]];
    cbn [name inputSchema properties In] in *.
  - destruct Hp as [Hp|[Hp|[]]]; injection Hp as <- <-; cbn [default] in Hd;
      injection Hd as <-; rewrite !handler_get_current_time.
    + rewrite format_of_insert_timezone, (timezone_of_insert_default _ Hm). reflexivity.
    + rewrite timezone_of_insert_format, (format_of_insert_default _ Hm). reflexivity.
  - destruct Hp as [Hp|[]]; injection Hp as <- <-; cbn [default] in Hd;
      injection Hd as <-; rewrite !handler_get_time_info.
    rewrite (timezone_of_insert_default _ Hm). reflexivity.
Qed.

(** X7: a [format] outside the three declared values is not rejected,
    and what it means depends on the time zone: with the system time zone
    the call answers like [format = "12hour"], with a named time zone like
    [format = "24hour"]. *)
Theorem format_outside_enum m w :
  format_of (Some m) <> VStr "12hour" ->
  format_of (Some m) <> VStr "24hour" ->
  format_of (Some m) <> VStr "iso" ->
  CallToolRequest_handler "get_current_time" (Some m) w
  = CallToolRequest_handler "get_current_time"
      (Some (<["format" :=
                 VStr (if strict_eq_str (timezone_of (Some m)) "system"
                       then "12hour" else "24hour")]> m)) w.
Proof.
  intros H12 H24 Hiso.
  apply strict_eq_str_false in H12, H24, Hiso.
  rewrite !handler_get_current_time, timezone_of_insert_format.
  assert (forall f : string,
             f <> EmptyString ->
             format_of (Some (<["format" := VStr f]> m)) = VStr f) as Hset.
  { intros f Hf. unfold format_of, opt_get. rewrite lookup_insert_eq. cbn.
    apply String.eqb_neq in Hf. rewrite Hf. reflexivity. }
  unfold timeString_of.
  destruct (strict_eq_str (timezone_of (Some m)) "system"); cbn [negb];
    rewrite Hset by discriminate; rewrite ?H12, ?H24, ?Hiso; reflexivity.
Qed.

(** X8: the twelve leading fields of the [get_time_info] record are
    computed for the host's own time zone and do not depend on the
    [timezone] argument: two successful calls at the same instant (their
    [timezone] has a string form) agree on them, key by key and value by
    value.  The requested time zone only adds fields after them. *)
Theorem host_fields_ignore_timezone args1 args2 w identifier1 identifier2 :
  ToString (timezone_of args1) = Some identifier1 ->
  ToString (timezone_of args2) = Some identifier2 ->
  exists record1 record2,
    CallToolRequest_handler "get_time_info" args1 w
    = (Normal {| content := [ {| type := "text";
                                 text := JSON_stringify (VObj record1) 2 |} ];
                 isError := None |},
       tick w)
    /\ CallToolRequest_handler "get_time_info" args2 w
       = (Normal {| content := [ {| type := "text";
                                    text := JSON_stringify (VObj record2) 2 |} ];
                    isError := None |},
          tick w)
    /\ firstn 12 record1 = firstn 12 record2
    /\ map fst (firstn 12 record1)
       = [ "timestamp"; "iso_string"; "local_time"; "day_of_week"; "date"; "year";
           "month"; "day"; "hour"; "minute"; "second"; "timezone_offset" ]
    /\ Forall (fun key => get_prop record1 key = get_prop record2 key)
         (map fst (firstn 12 record1)).
Proof.
  intros H1 H2.
  exists (system_fields (reading w) ++ zone_fields (timezone_of args1) (reading w))%list,
         (system_fields (reading w) ++ zone_fields (timezone_of args2) (reading w))%list.
  rewrite !handler_get_time_info. unfold timeInfo_of. rewrite H1, H2.
  split; [reflexivity|]. split; [reflexivity|]. split; [reflexivity|].
  split; [reflexivity|].
  cbn [system_fields app firstn map fst].
  repeat (apply Forall_cons; split; [reflexivity|]). apply Forall_nil. exact I.
Qed.

(** X9: the three zone-dependent keys of the record of a successful
    [get_time_info] call go together.  With the system time zone none of
    them is present; with any other time zone either [timezone_time] and
    [requested_timezone] are both present (and [requested_timezone] is the
    argument as received) and [timezone_error] is absent, or
    [timezone_error] alone is present. *)
Theorem zone_keys_go_together args w identifier :
  ToString (timezone_of args) = Some identifier ->
  exists record,
    fst (CallToolRequest_handler "get_time_info" args w)
    = Normal {| content := [ {| type := "text";
                                text := JSON_stringify (VObj record) 2 |} ];
                isError := None |}
    /\ match get_prop record "timezone_error" with
       | Some _ =>
           timezone_of args <> VStr "system"
           /\ get_prop record "timezone_time" = None
           /\ get_prop record "requested_timezone" = None
       | None =>
           if strict_eq_str (timezone_of args) "system" then
             get_prop record "timezone_time" = None
             /\ get_prop record "requested_timezone" = None
           else
             (exists formatted, get_prop record "timezone_time" = Some (VStr formatted))
             /\ get_prop record "requested_timezone" = Some (timezone_of args)
       end.
Proof.
  intros Hid.
  exists (system_fields (reading w) ++ zone_fields (timezone_of args) (reading w))%list.
  rewrite handler_get_time_info. unfold timeInfo_of. rewrite Hid.
  split; [reflexivity|].
  unfold zone_fields. rewrite Hid.
  destruct (strict_eq_str (timezone_of args) "system") eqn:Hsys.
  - cbn. auto.
  - destruct (IsValidTimeZoneName identifier); cbn.
    + split; [eexists; reflexivity | reflexivity].
    + apply strict_eq_str_false in Hsys. auto.
Qed.

(** X10: the two tools agree on the instant.  In the same world the
    string that [get_current_time] reports for [format = "iso"] with the
    system time zone is the [iso_string] field of the record of a
    successful [get_time_info] call, and the record's [timestamp] is that
    same reading. *)
Theorem iso_string_agrees args1 args2 w identifier :
  timezone_of args1 = VStr "system" ->
  format_of args1 = VStr "iso" ->
  ToString (timezone_of args2) = Some identifier ->
  exists iso record,
    CallToolRequest_handler "get_current_time" args1 w
    = (Normal {| content := [ {| type := "text"; text := "Current time: " +:+ iso |} ];
                 isError := None |},
       tick w)
    /\ CallToolRequest_handler "get_time_info" args2 w
       = (Normal {| content := [ {| type := "text";
                                    text := JSON_stringify (VObj record) 2 |} ];
                    isError := None |},
          tick w)
    /\ get_prop record "iso_string" = Some (VStr iso)
    /\ get_prop record "timestamp" = Some (VNum (Number_ofZ (clock w (samples w)))).
Proof.
  intros Hsys Hiso Hid.
  exists (Date_toISOString (reading w)),
         (system_fields (reading w) ++ zone_fields (timezone_of args2) (reading w))%list.
  rewrite handler_get_current_time, handler_get_time_info.
  unfold timeString_of, timeInfo_of. rewrite Hsys, Hiso, Hid.
  repeat (split; [reflexivity|]). reflexivity.
Qed.

(** X12: a [timezone] that has no string form (an object with an own
    [toString] property, or an array holding one) makes both tools answer
    with the failure envelope carrying the host's [TypeError] message,
    after one clock reading.  In [get_time_info] the local [catch] does
    not contain it: building ["Invalid timezone: {timezone}"] throws
    again, so the block itself throws. *)
Theorem unconvertible_timezone_fails args w :
  ToString (timezone_of args) = None ->
  CallToolRequest_handler "get_current_time" args w
  = (Normal {| content :=
                 [ {| type := "text";
                      text := "Error: " +:+ cannotConvertMessage (timezone_of args) |} ];
               isError := Some true |},
     tick w)
  /\ CallToolRequest_handler "get_time_info" args w
     = (Normal {| content :=
                    [ {| type := "text";
                         text := "Error: " +:+ cannotConvertMessage (timezone_of args) |} ];
                  isError := Some true |},
        tick w)
  /\ get_time_info args w
     = (Throw (ThrownError "TypeError" (cannotConvertMessage (timezone_of args))), tick w).
Proof.
  intros Hno.
  assert (strict_eq_str (timezone_of args) "system" = false) as Hsys.
  { apply strict_eq_str_false. intros E. rewrite E in Hno. discriminate Hno. }
  rewrite handler_get_current_time, handler_get_time_info, get_time_info_run.
  unfold timeString_of, timeInfo_of. rewrite Hsys, Hno.
  repeat split.
Qed.

End FurtherProperties.

(** ** The properties on the reference host *)

Section OnRefHost.
Import RefHost.

Lemma invalid_timezone_asymmetry_witness :
  timezone_of bad_zone <> VStr "system"
  /\ ToString (timezone_of bad_zone) = Some "Not/ARealZone"
  /\ IsValidTimeZoneName "Not/ARealZone" = false
  /\ CallToolRequest_handler "get_current_time" bad_zone world
     = (Normal {| content :=
                    [ {| type := "text";
                         text := "Error: Invalid time zone specified: Not/ARealZone" |} ];
                  isError := Some true |},
        tick world)
  /\ exists timeInfo,
       get_time_info bad_zone world
       = (Normal {| content := [ {| type := "text";
                                    text := JSON_stringify (VObj timeInfo) 2 |} ];
                    isError := None |},
          tick world)
       /\ get_prop timeInfo "timezone_error"
          = Some (VStr "Invalid timezone: Not/ARealZone")
       /\ get_prop timeInfo "timezone_time" = None.
Proof.
  split; [vm_compute; discriminate|]. split; [vm_compute; reflexivity|].
  split; [vm_compute; reflexivity|].
  destruct (invalid_timezone_asymmetry bad_zone world "Not/ARealZone")
    as [_ [timeInfo Hinfo]];
    [vm_compute; discriminate | vm_compute; reflexivity | vm_compute; reflexivity |].
  split; [vm_compute; reflexivity|].
  exists timeInfo. destruct Hinfo as (_ & Htext & _ & Herr & Htime).
  split; [exact Htext|]. split; [exact Herr | exact Htime].
Defined.

(** C1, as stated, fails for a [timezone] the host rejects because it
    cannot be converted to a string: the formatter throws, so does
    [get_current_time], but [get_time_info] does not answer with
    [timezone_error] in a success envelope.  Its [catch] block throws while
    building the message, and the answer is the failure envelope. *)
Lemma unconvertible_timezone_counterexample :
  timezone_of unconvertible_zone = unconvertible
  /\ unconvertible <> VStr "system"
  /\ Intl_DateTimeFormat (Some "en-US") (short_zone_name_options unconvertible) world
     = (Throw (ThrownError "TypeError" "Cannot convert object to primitive value"), world)
  /\ CallToolRequest_handler "get_current_time" unconvertible_zone world
     = (Normal {| content :=
                    [ {| type := "text";
                         text := "Error: Cannot convert object to primitive value" |} ];
                  isError := Some true |},
        tick world)
  /\ CallToolRequest_handler "get_time_info" unconvertible_zone world
     = (Normal {| content :=
                    [ {| type := "text";
                         text := "Error: Cannot convert object to primitive value" |} ];
                  isError := Some true |},
        tick world)
  /\ ~ (exists timeInfo w',
          CallToolRequest_handler "get_time_info" unconvertible_zone world
          = (Normal {| content := [ {| type := "text";
                                       text := JSON_stringify (VObj timeInfo) 2 |} ];
                       isError := None |},
             w')).
Proof.
  split; [vm_compute; reflexivity|]. split; [discriminate|].
  split; [vm_compute; reflexivity|]. split; [vm_compute; reflexivity|].
  split; [vm_compute; reflexivity|].
  intros (timeInfo & w' & Hrun).
  assert (fst (CallToolRequest_handler "get_time_info" unconvertible_zone world)
          = Normal {| content := [ {| type := "text";
                                      text := JSON_stringify (VObj timeInfo) 2 |} ];
                      isError := None |}) as Hfst by (rewrite Hrun; reflexivity).
  assert (fst (CallToolRequest_handler "get_time_info" unconvertible_zone world)
          = Normal {| content :=
                        [ {| type := "text";
                             text := "Error: Cannot convert object to primitive value" |} ];
                      isError := Some true |}) as Hreal by (vm_compute; reflexivity).
  rewrite Hreal in Hfst. discriminate Hfst.
Qed.

Lemma unknown_tool_failure_witness :
  ~ In "nonexistent_op" (map name (tools tools_literal))
  /\ CallToolRequest_handler "nonexistent_op" no_arguments world
     = (Normal {| content := [ {| type := "text";
                                  text := "Error: Unknown tool: nonexistent_op" |} ];
                  isError := Some true |},
        world).
Proof.
  assert (~ In "nonexistent_op" (map name (tools tools_literal))) as Hnot.
  { cbn. intros [E|[E|[]]]; discriminate E. }
  split; [exact Hnot|].
  exact (unknown_tool_failure "nonexistent_op" no_arguments world Hnot).
Defined.

Lemma named_zone_time_witness :
  timezone_of tokyo_iso <> VStr "system"
  /\ ToString (timezone_of tokyo_iso) = Some "Asia/Tokyo"
  /\ IsValidTimeZoneName "Asia/Tokyo" = true
  /\ format_of tokyo_iso = VStr "iso"
  /\ CallToolRequest_handler "get_current_time" tokyo_iso world
     = (Normal {| content := [ {| type := "text";
                                  text := "Current time: 01/15/2024, 19:30:00" |} ];
                  isError := None |},
        tick world).
Proof.
  split; [vm_compute; discriminate|]. split; [vm_compute; reflexivity|].
  split; [vm_compute; reflexivity|]. split; [vm_compute; reflexivity|].
  destruct (named_zone_time tokyo_iso world "Asia/Tokyo") as [twelve [Htwelve Hrun]];
    [vm_compute; discriminate | vm_compute; reflexivity | vm_compute; reflexivity |].
  rewrite Hrun. destruct twelve.
  - destruct Htwelve as [Hiso _]. specialize (Hiso eq_refl).
    vm_compute in Hiso. discriminate Hiso.
  - vm_compute. reflexivity.
Defined.

(** C5, as stated, fails when the host rejects the time zone: the call
    yields the failure envelope, not a ["Current time: ..."] text. *)
Lemma named_zone_rejected_counterexample :
  timezone_of bad_zone <> VStr "system"
  /\ CallToolRequest_handler "get_current_time" bad_zone world
     = (Normal {| content :=
                    [ {| type := "text";
                         text := "Error: Invalid time zone specified: Not/ARealZone" |} ];
                  isError := Some true |},
        tick world)
  /\ ~ (exists timeString w',
          CallToolRequest_handler "get_current_time" bad_zone world
          = (Normal {| content := [ {| type := "text";
                                       text := "Current time: " +:+ timeString |} ];
                       isError := None |},
             w')).
Proof.
  split; [vm_compute; discriminate|]. split; [vm_compute; reflexivity|].
  intros (timeString & w' & Hrun).
  vm_compute in Hrun. discriminate Hrun.
Qed.

Lemma system_zone_time_witness :
  timezone_of system_24hour = VStr "system"
  /\ CallToolRequest_handler "get_current_time" system_24hour world
     = (Normal {| content := [ {| type := "text";
                                  text := "Current time: 1/15/2024, 10:30:00" |} ];
                  isError := None |},
        tick world).
Proof.
  assert (timezone_of system_24hour = VStr "system") as Hsys by (vm_compute; reflexivity).
  split; [exact Hsys|].
  rewrite (system_zone_time system_24hour world Hsys). vm_compute. reflexivity.
Defined.

(** C6, as stated, fails on a host whose default locale is not [en-US]:
    the ["24hour"] text is the [en-US] rendering, not the rendering in the
    host's default locale. *)
Lemma host_default_locale_counterexample :
  timezone_of system_24hour = VStr "system"
  /\ format_of system_24hour = VStr "24hour"
  /\ CallToolRequest_handler "get_current_time" system_24hour world
     = (Normal {| content := [ {| type := "text";
                                  text := "Current time: 1/15/2024, 10:30:00" |} ];
                  isError := None |},
        tick world)
  /\ specified_24hour_text (reading world) = "Current time: 15.1.2024, 10:30:00"
  /\ CallToolRequest_handler "get_current_time" system_24hour world
     <> (Normal {| content := [ {| type := "text";
                                   text := specified_24hour_text (reading world) |} ];
                   isError := None |},
         tick world).
Proof.
  split; [vm_compute; reflexivity|]. split; [vm_compute; reflexivity|].
  split; [vm_compute; reflexivity|]. split; [vm_compute; reflexivity|].
  intros Hrun. vm_compute in Hrun. discriminate Hrun.
Qed.

(** C7, as stated, fails on a host whose default locale is not [en-US]:
    the fifth field, [date], is the [en-US] date string, not the
    locale-default one. *)
Lemma locale_default_date_counterexample :
  timezone_of no_arguments = VStr "system"
  /\ get_time_info_record (timezone_of no_arguments) (reading world) (tick world)
     = (Normal
          [ ("timestamp", VNum 1705314600000);
            ("iso_string", VStr "2024-01-15T10:30:00.000Z");
            ("local_time", VStr "15.1.2024, 10:30:00");
            ("day_of_week", VStr "Monday");
            ("date", VStr "1/15/2024");
            ("year", VNum 2024);
            ("month", VNum 1);
            ("day", VNum 15);
            ("hour", VNum 10);
            ("minute", VNum 30);
            ("second", VNum 0);
            ("timezone_offset", VNum 0) ],
        tick world)
  /\ nth_error (specified_system_fields (reading world)) 4
     = Some ("date", VStr "15.1.2024")
  /\ CallToolRequest_handler "get_time_info" no_arguments world
     <> (Normal {| content :=
                     [ {| type := "text";
                          text := JSON_stringify
                                    (VObj (specified_system_fields (reading world))) 2 |} ];
                   isError := None |},
         tick world).
Proof.
  split; [vm_compute; reflexivity|]. split; [vm_compute; reflexivity|].
  split; [vm_compute; reflexivity|].
  intros Hrun. vm_compute in Hrun. discriminate Hrun.
Qed.

Lemma undeclared_keys_ignored_witness :
  opt_get tokyo_verbose "timezone" = opt_get tokyo "timezone"
  /\ opt_get tokyo_verbose "format" = opt_get tokyo "format"
  /\ tokyo_verbose <> tokyo
  /\ CallToolRequest_handler "get_time_info" tokyo_verbose world
     = CallToolRequest_handler "get_time_info" tokyo world
  /\ CallToolRequest_handler "get_current_time" tokyo_verbose world
     = CallToolRequest_handler "get_current_time" tokyo world.
Proof.
  assert (opt_get tokyo_verbose "timezone" = opt_get tokyo "timezone") as Htz
    by (vm_compute; reflexivity).
  assert (opt_get tokyo_verbose "format" = opt_get tokyo "format") as Hfmt
    by (vm_compute; reflexivity).
  split; [exact Htz|]. split; [exact Hfmt|]. split.
  - intros E. assert (opt_get tokyo_verbose "verbose" = opt_get tokyo "verbose") as E'
      by (rewrite E; reflexivity).
    vm_compute in E'. discriminate E'.
  - destruct (undeclared_keys_ignored tokyo_verbose tokyo world Htz) as [Hinfo Htime].
    split; [exact Hinfo | exact (Htime Hfmt)].
Defined.

(** A few runs of the handlers on the reference host. *)

Example iso_without_timezone :
  CallToolRequest_handler "get_current_time" (Some {[ "format" := VStr "iso" ]}) world
  = (Normal {| content := [ {| type := "text";
                               text := "Current time: 2024-01-15T10:30:00.000Z" |} ];
               isError := None |},
     tick world).
Proof. vm_compute. reflexivity. Qed.

Example tokyo_24hour :
  CallToolRequest_handler "get_current_time"
    (Some {[ "timezone" := VStr "Asia/Tokyo"; "format" := VStr "24hour" ]}) world
  = (Normal {| content := [ {| type := "text";
                               text := "Current time: 01/15/2024, 19:30:00" |} ];
               isError := None |},
     tick world).
Proof. vm_compute. reflexivity. Qed.

Example tokyo_12hour :
  CallToolRequest_handler "get_current_time" tokyo world
  = (Normal {| content := [ {| type := "text";
                               text := "Current time: 01/15/2024, 07:30:00 PM" |} ];
               isError := None |},
     tick world).
Proof. vm_compute. reflexivity. Qed.

Example empty_timezone_is_system :
  CallToolRequest_handler "get_current_time"
    (Some {[ "timezone" := VStr EmptyString ]}) world
  = CallToolRequest_handler "get_current_time" None world.
Proof. vm_compute. reflexivity. Qed.

Example time_info_for_tokyo :
  CallToolRequest_handler "get_time_info" tokyo world
  = (Normal
       {| content :=
            [ {| type := "text";
                 text := JSON_stringify
                   (VObj [ ("timestamp", VNum 1705314600000);
                           ("iso_string", VStr "2024-01-15T10:30:00.000Z");
                           ("local_time", VStr "15.1.2024, 10:30:00");
                           ("day_of_week", VStr "Monday");
                           ("date", VStr "1/15/2024");
                           ("year", VNum 2024);
                           ("month", VNum 1);
                           ("day", VNum 15);
                           ("hour", VNum 10);
                           ("minute", VNum 30);
                           ("second", VNum 0);
                           ("timezone_offset", VNum 0);
                           ("timezone_time", VStr "01/15/2024, 07:30:00 PM GMT+9");
                           ("requested_timezone", VStr "Asia/Tokyo") ]) 2 |} ];
          isError := None |},
     tick world).
Proof. vm_compute. reflexivity. Qed.

(** Two calls in a row on a running clock: each uses its own reading. *)
Example two_calls_in_succession :
  let first := CallToolRequest_handler "get_current_time" system_24hour ticking in
  let second := CallToolRequest_handler "get_current_time" system_24hour (snd first) in
  fst first
  = Normal {| content := [ {| type := "text";
                              text := "Current time: 1/15/2024, 10:30:00" |} ];
              isError := None |}
  /\ fst second
     = Normal {| content := [ {| type := "text";
                                 text := "Current time: 1/15/2024, 10:30:01" |} ];
                 isError := None |}
  /\ samples (snd second) = 2%nat.
Proof. vm_compute. repeat split. Qed.

End OnRefHost.

(** ** Further runs on the reference host *)

Section FurtherOnRefHost.
Import RefHost RefRuns.

Lemma declared_defaults_honoured_witness :
  tokyo_bag !! "format" = None
  /\ CallToolRequest_handler "get_current_time" (Some tokyo_bag) world
     = CallToolRequest_handler "get_current_time"
         (Some (<["format" := VStr "12hour"]> tokyo_bag)) world.
Proof.
  assert (tokyo_bag !! "format" = None) as Hm by (vm_compute; reflexivity).
  split; [exact Hm|].
  refine (declared_defaults_honoured (listed 0) "format" format_schema "12hour"
            tokyo_bag world _ _ _ Hm).
  - cbn. left. reflexivity.
  - cbn. right. left. reflexivity.
  - reflexivity.
Defined.

Lemma format_outside_enum_witness :
  format_of (Some tokyo_military) = VStr "military"
  /\ format_of (Some system_military) = VStr "military"
  /\ CallToolRequest_handler "get_current_time" (Some tokyo_military) world
     = CallToolRequest_handler "get_current_time"
         (Some (<["format" := VStr "24hour"]> tokyo_military)) world
  /\ CallToolRequest_handler "get_current_time" (Some system_military) world
     = CallToolRequest_handler "get_current_time"
         (Some (<["format" := VStr "12hour"]> system_military)) world
  /\ fst (CallToolRequest_handler "get_current_time" (Some tokyo_military) world)
     = Normal {| content := [ {| type := "text";
                                 text := "Current time: 01/15/2024, 19:30:00" |} ];
                 isError := None |}
  /\ fst (CallToolRequest_handler "get_current_time" (Some system_military) world)
     = Normal {| content := [ {| type := "text";
                                 text := "Current time: 1/15/2024, 10:30:00 AM" |} ];
                 isError := None |}.
Proof.
  split; [vm_compute; reflexivity|]. split; [vm_compute; reflexivity|].
  split.
  - apply (format_outside_enum tokyo_military world);
      vm_compute; discriminate.
  - split.
    + apply (format_outside_enum system_military world);
        vm_compute; discriminate.
    + split; vm_compute; reflexivity.
Defined.

Lemma iso_string_agrees_witness :
  timezone_of system_iso = VStr "system"
  /\ format_of system_iso = VStr "iso"
  /\ ToString (timezone_of tokyo) = Some "Asia/Tokyo"
  /\ exists iso record,
       fst (CallToolRequest_handler "get_current_time" system_iso world)
       = Normal {| content := [ {| type := "text"; text := "Current time: " +:+ iso |} ];
                   isError := None |}
       /\ fst (CallToolRequest_handler "get_time_info" tokyo world)
          = Normal {| content := [ {| type := "text";
                                      text := JSON_stringify (VObj record) 2 |} ];
                      isError := None |}
       /\ get_prop record "iso_string" = Some (VStr iso).
Proof.
  assert (timezone_of system_iso = VStr "system") as Hsys by (vm_compute; reflexivity).
  assert (format_of system_iso = VStr "iso") as Hiso by (vm_compute; reflexivity).
  split; [exact Hsys|]. split; [exact Hiso|]. split; [vm_compute; reflexivity|].
  destruct (iso_string_agrees system_iso tokyo world "Asia/Tokyo" Hsys Hiso)
    as (iso & record & Htime & Hinfo & Hfield & _); [vm_compute; reflexivity|].
  exists iso, record. rewrite Htime, Hinfo. split; [reflexivity|].
  split; [reflexivity | exact Hfield].
Defined.

Lemma logging_preserves_response_witness :
  ToString (js_or (opt_get_prop tokyo_object "format") (VStr "12hour")) = Some "12hour"
  /\ fst (CallToolRequest_handler_logged "get_current_time" tokyo_object quiet)
     = fst (CallToolRequest_handler "get_current_time" (bag_of tokyo_object)
              (advance 2 ticking))
  /\ fst (CallToolRequest_handler_logged "get_current_time" tokyo_object quiet)
     = Normal {| content := [ {| type := "text";
                                 text := "Current time: 01/15/2024, 07:30:02 PM" |} ];
                 isError := None |}.
Proof.
  assert (ToString (js_or (opt_get_prop tokyo_object "format") (VStr "12hour"))
          = Some "12hour") as Hfmt by (vm_compute; reflexivity).
  split; [exact Hfmt|]. split.
  - exact (logging_preserves_response "get_current_time" tokyo_object quiet "12hour" Hfmt).
  - vm_compute. reflexivity.
Defined.

Lemma unconvertible_format_diverges_witness :
  js_or (opt_get_prop odd_format_object "timezone") (VStr "system") = VStr "system"
  /\ ToString (js_or (opt_get_prop odd_format_object "format") (VStr "12hour")) = None
  /\ fst (CallToolRequest_handler "get_current_time" (bag_of odd_format_object) ticking)
     = Normal {| content := [ {| type := "text";
                                 text := "Current time: 1/15/2024, 10:30:00 AM" |} ];
                 isError := None |}
  /\ fst (CallToolRequest_handler_logged "get_current_time" odd_format_object quiet)
     = Normal {| content :=
                   [ {| type := "text";
                        text := "Error: Cannot convert object to primitive value" |} ];
                 isError := Some true |}
  /\ samples (lw_world (snd (CallToolRequest_handler_logged "get_current_time"
                               odd_format_object quiet)))
     = 2%nat.
Proof.
  assert (js_or (opt_get_prop odd_format_object "timezone") (VStr "system")
          = VStr "system") as Hsys by (vm_compute; reflexivity).
  assert (ToString (js_or (opt_get_prop odd_format_object "format") (VStr "12hour"))
          = None) as Hfmt by (vm_compute; reflexivity).
  split; [exact Hsys|]. split; [exact Hfmt|].
  destruct (unconvertible_format_diverges odd_format_object quiet Hsys Hfmt)
    as (Hfirst & Hlogged & Hclock).
  unfold quiet in Hfirst at 1 2. cbn [lw_world] in Hfirst.
  split; [rewrite Hfirst; vm_compute; reflexivity|].
  split; [rewrite Hlogged; vm_compute; reflexivity|].
  rewrite Hclock. reflexivity.
Defined.

Lemma host_fields_ignore_timezone_witness :
  ToString (timezone_of tokyo) = Some "Asia/Tokyo"
  /\ ToString (timezone_of bad_zone) = Some "Not/ARealZone"
  /\ exists record1 record2,
       fst (CallToolRequest_handler "get_time_info" tokyo world)
       = Normal {| content := [ {| type := "text";
                                   text := JSON_stringify (VObj record1) 2 |} ];
                   isError := None |}
       /\ fst (CallToolRequest_handler "get_time_info" bad_zone world)
          = Normal {| content := [ {| type := "text";
                                      text := JSON_stringify (VObj record2) 2 |} ];
                      isError := None |}
       /\ firstn 12 record1 = firstn 12 record2.
Proof.
  assert (ToString (timezone_of tokyo) = Some "Asia/Tokyo") as H1
    by (vm_compute; reflexivity).
  assert (ToString (timezone_of bad_zone) = Some "Not/ARealZone") as H2
    by (vm_compute; reflexivity).
  split; [exact H1|]. split; [exact H2|].
  destruct (host_fields_ignore_timezone tokyo bad_zone world _ _ H1 H2)
    as (record1 & record2 & Hrun1 & Hrun2 & Hsame & Hkeys & _).
  exists record1, record2. rewrite Hrun1, Hrun2.
  split; [reflexivity|]. split; [reflexivity|]. exact Hsame.
Defined.

Lemma zone_keys_go_together_witness :
  ToString (timezone_of tokyo) = Some "Asia/Tokyo"
  /\ exists record,
       fst (CallToolRequest_handler "get_time_info" tokyo world)
       = Normal {| content := [ {| type := "text";
                                   text := JSON_stringify (VObj record) 2 |} ];
                   isError := None |}
       /\ match get_prop record "timezone_error" with
          | Some _ =>
              get_prop record "timezone_time" = None
              /\ get_prop record "requested_timezone" = None
          | None =>
              (exists formatted, get_prop record "timezone_time" = Some (VStr formatted))
              /\ get_prop record "requested_timezone" = Some (VStr "Asia/Tokyo")
          end.
Proof.
  assert (ToString (timezone_of tokyo) = Some "Asia/Tokyo") as Hid
    by (vm_compute; reflexivity).
  split; [exact Hid|].
  destruct (zone_keys_go_together tokyo world "Asia/Tokyo" Hid) as (record & Hrun & Hkeys).
  exists record. split; [exact Hrun|].
  assert (strict_eq_str (timezone_of tokyo) "system" = false) as Hsys
    by (vm_compute; reflexivity).
  rewrite Hsys in Hkeys.
  destruct (get_prop record "timezone_error") as [v|].
  - destruct Hkeys as (_ & Htime & Hreq). split; [exact Htime | exact Hreq].
  - destruct Hkeys as [Htime Hreq]. split; [exact Htime|].
    rewrite Hreq. vm_compute. reflexivity.
Defined.

Lemma unconvertible_timezone_fails_witness :
  ToString (timezone_of unconvertible_zone) = None
  /\ CallToolRequest_handler "get_current_time" unconvertible_zone world
     = (Normal {| content :=
                    [ {| type := "text";
                         text := "Error: Cannot convert object to primitive value" |} ];
                  isError := Some true |},
        tick world)
  /\ CallToolRequest_handler "get_time_info" unconvertible_zone world
     = (Normal {| content :=
                    [ {| type := "text";
                         text := "Error: Cannot convert object to primitive value" |} ];
                  isError := Some true |},
        tick world).
Proof.
  assert (ToString (timezone_of unconvertible_zone) = None) as Hno
    by (vm_compute; reflexivity).
  split; [exact Hno|].
  destruct (unconvertible_timezone_fails unconvertible_zone world Hno)
    as (Htime & Hinfo & _).
  split; [exact Htime | exact Hinfo].
Defined.

(** A logged call on the running clock: the answer uses the third
    reading, the log lines the first, second and fourth. *)
Example logged_tokyo_call :
  let run := CallToolRequest_handler_logged "get_current_time" tokyo_object quiet in
  fst run
  = Normal {| content := [ {| type := "text";
                              text := "Current time: 01/15/2024, 07:30:02 PM" |} ];
              isError := None |}
  /\ samples (lw_world (snd run)) = 4%nat
  /\ lw_stderr (snd run)
     = [ "[2024-01-15T10:30:00.000Z] INFO: Received tool call: get_current_time";
         JSON_stringify (VObj [ ("timezone", VStr "Asia/Tokyo") ]) 2;
         "[2024-01-15T10:30:01.000Z] INFO: Getting current time - timezone: Asia/Tokyo, format: 12hour";
         "[2024-01-15T10:30:03.000Z] INFO: Returning time: 01/15/2024, 07:30:02 PM" ].
Proof. cbv zeta. split; [|split]; vm_compute; reflexivity. Qed.

(** A logged call that fails inside the handler. *)
Example logged_bad_zone_call :
  let run := CallToolRequest_handler_logged "get_current_time" bad_zone_object quiet in
  fst run
  = Normal {| content :=
                [ {| type := "text";
                     text := "Error: Invalid time zone specified: Not/ARealZone" |} ];
              isError := Some true |}
  /\ samples (lw_world (snd run)) = 4%nat
  /\ lw_stderr (snd run)
     = [ "[2024-01-15T10:30:00.000Z] INFO: Received tool call: get_current_time";
         JSON_stringify (VObj [ ("timezone", VStr "Not/ARealZone") ]) 2;
         "[2024-01-15T10:30:01.000Z] INFO: Getting current time - timezone: Not/ARealZone, format: 12hour";
         "[2024-01-15T10:30:03.000Z] ERROR: Tool execution failed: get_current_time";
         "{}" ].
Proof. cbv zeta. split; [|split]; vm_compute; reflexivity. Qed.

(** A logged call of an unknown tool, without arguments. *)
Example logged_unknown_call :
  let run := CallToolRequest_handler_logged "nonexistent_op" None quiet in
  fst run
  = Normal {| content := [ {| type := "text";
                              text := "Error: Unknown tool: nonexistent_op" |} ];
              isError := Some true |}
  /\ samples (lw_world (snd run)) = 2%nat
  /\ lw_stderr (snd run)
     = [ "[2024-01-15T10:30:00.000Z] INFO: Received tool call: nonexistent_op";
         "[2024-01-15T10:30:01.000Z] ERROR: Tool execution failed: nonexistent_op";
         "{}" ].
Proof. cbv zeta. split; [|split]; vm_compute; reflexivity. Qed.

Example logged_listing :
  let run := ListToolsRequest_handler_logged quiet in
  samples (lw_world (snd run)) = 2%nat
  /\ lw_stderr (snd run)
     = [ "[2024-01-15T10:30:00.000Z] INFO: Received tools/list request";
         "[2024-01-15T10:30:01.000Z] INFO: Returning 2 available tools" ].
Proof. cbv zeta. split; vm_compute; reflexivity. Qed.

End FurtherOnRefHost.
